(** * Crop recommender: the pipeline of [app.py]

    A shallow embedding of the Streamlit script [src/app.py]: the dataset
    loader ([load_data]), the column resolver and trainer ([train_model]) and
    the body of the recommendation button, followed by the properties of the
    specification that concern them.

    Python strings are sequences of Unicode code points; the libraries the
    script calls (pandas' [read_csv], scikit-learn's tree learner, joblib)
    appear through what the script observes of them: a value, or an
    exception of some class. *)

From Stdlib Require Import List String Ascii NArith ZArith QArith Bool Lia.
Import ListNotations.

Set Implicit Arguments.

(** ** Python [str] *)

Module Py.

(** A [str] is the list of its code points. *)
Definition str := list N.

(** Reads a literal written in this file (UTF-8 bytes) as a [str]:
    [need] continuation bytes are still expected for the code point whose
    leading bits are in [acc]. *)
Fixpoint utf8_go (s : string) (need : nat) (acc : N) : str :=
  match s with
  | EmptyString => []
  | String c rest =>
      let b := N_of_ascii c in
      match need with
      | O =>
          if (b <? 128)%N then b :: utf8_go rest 0 0%N
          else if (b <? 224)%N then utf8_go rest 1 (b - 192)%N
          else if (b <? 240)%N then utf8_go rest 2 (b - 224)%N
          else utf8_go rest 3 (b - 240)%N
      | S k =>
          let acc' := (acc * 64 + (b - 128))%N in
          match k with
          | O => acc' :: utf8_go rest 0 0%N
          | S _ => utf8_go rest k acc'
          end
      end
  end.

Definition utf8 (s : string) : str := utf8_go s 0 0%N.

(** [a == b] *)
Fixpoint str_eqb (a b : str) : bool :=
  match a, b with
  | [], [] => true
  | x :: a', y :: b' => (x =? y)%N && str_eqb a' b'
  | _, _ => false
  end.

(** [str.isspace] on one code point: the characters [str.strip()] removes. *)
Definition isspace (c : N) : bool :=
  ((9 <=? c) && (c <=? 13) || (28 <=? c) && (c <=? 32)
   || (c =? 133) || (c =? 160) || (c =? 5760)
   || (8192 <=? c) && (c <=? 8202)
   || (c =? 8232) || (c =? 8233) || (c =? 8239) || (c =? 8287)
   || (c =? 12288))%N.

Fixpoint lstrip (s : str) : str :=
  match s with
  | [] => []
  | c :: rest => if isspace c then lstrip rest else s
  end.

Definition rstrip (s : str) : str := rev (lstrip (rev s)).

(** [s.strip()] *)
Definition strip (s : str) : str := rstrip (lstrip s).

(** [s.replace(c, '')] for a one-character pattern [c]. *)
Definition remove_char (c : N) (s : str) : str :=
  filter (fun x => negb (x =? c)%N) s.

Fixpoint startswith (prefix s : str) : bool :=
  match prefix, s with
  | [], _ => true
  | _ :: _, [] => false
  | p :: prefix', c :: s' => (p =? c)%N && startswith prefix' s'
  end.

(** [needle in s] *)
Fixpoint contains (needle s : str) : bool :=
  startswith needle s ||
  match s with
  | [] => false
  | _ :: s' => contains needle s'
  end.

Definition space : N := 32.
Definition lparen : N := 40.
Definition rparen : N := 41.
Definition newline : N := 10.

End Py.

Import Py.

(** ** Values, frames and models *)

(** A cell of the table: a number, a text, or a missing value. *)
Inductive value :=
| VNum (q : Q)
| VStr (s : str)
| VNaN.

(** Python's [==] on two cells; a missing value equals nothing. *)
Definition value_eqb (a b : value) : bool :=
  match a, b with
  | VNum x, VNum y => Qeq_bool x y
  | VStr x, VStr y => str_eqb x y
  | _, _ => false
  end.

Record DataFrame := {
  columns : list str;
  rows : list (list value)
}.

(** A row taken out of a frame: a pandas Series indexed by the labels. *)
Record Series := {
  index : list str;
  values : list value
}.

(** What a fitted tree does with one sample, the row of its four numbers:
    it answers a label. How it gets there (the cast of the sample to
    single precision, the thresholds) is scikit-learn's and stays inside
    the function. *)
Definition Decision : Type := list Q -> value.

(** The fitted classifier: the column labels seen by [fit] and the
    decision of the fitted tree. *)
Record Model := {
  feature_names_in_ : list str;
  decide : Decision
}.

(** [DecisionTreeClassifier(max_depth=..., random_state=...)] *)
Record Estimator := {
  max_depth : nat;
  random_state : option Z
}.

(** ** Exceptions and outcomes *)

(** The exception classes the script tells apart, all below [Exception];
    [OtherError] stands for any other class below [Exception]. *)
Inductive exn_class :=
| UnicodeDecodeError
| FileNotFoundError
| IndexError
| KeyError
| ValueError
| OtherError (name : str).

(** An exception [e]: its class and [str(e)]. *)
Record exn := Exn {
  class_of : exn_class;
  exn_str : str
}.

(** What a library function gives back: an exception or a value. *)
Definition result (A : Type) : Type := (exn + A)%type.

(** How a call ends. [Stop] is Streamlit's [StopException], raised by
    [st.stop()]: a [BaseException], which [except Exception] lets through. *)
Inductive outcome (A : Type) :=
| Return (a : A)
| Raise (e : exn)
| Stop.

Arguments Return {A} a.
Arguments Raise {A} e.
Arguments Stop {A}.

(** ** The world the script runs in *)

(** An f-string: literal text and interpolated values. *)
Inductive piece :=
| Text (s : str)
| Fmt (v : value)
| FmtCells (vs : list value)
| FmtList (l : list str).

Definition message := list piece.

(** What a run leaves behind, in order: the elements put on the page and
    the calls made to the libraries and to the trainer. *)
Inductive event :=
| St_title (m : message)
| St_header (m : message)
| St_success (m : message)
| St_error (m : message)
| St_spinner (m : message)
| St_markdown (m : message)
| St_dataframe (df : DataFrame)
| St_caption (m : message)
| Call_read_csv (encoding : str)
| Call_train_model
| Call_fit (est : Estimator) (X y : DataFrame)
| Call_dump (m : Model).

(** The content of [model.pkl]: a model that [joblib.load] returns, or a
    content on which [joblib.load] raises [e]. The exception may be of any
    class: garbage bytes raise an unpickling or a key error, and an
    artifact that refers to a companion file no longer there raises
    [FileNotFoundError] although [model.pkl] itself exists. *)
Inductive Pickle :=
| Pickled (m : Model)
| Unreadable (e : exn).

Record World := {
  (** what [pd.read_csv('crop_data.csv', encoding=e)] does, per encoding *)
  crop_data_csv : str -> exn + DataFrame;
  (** the file [model.pkl], when it exists *)
  model_pkl : option Pickle;
  (** the state of NumPy's global random generator *)
  np_random : Z;
  (** the entry of [st.cache_data] for [load_data] *)
  cache_load_data : option DataFrame;
  trace : list event
}.

Definition emit (ev : event) (w : World) : World :=
  {| crop_data_csv := crop_data_csv w;
     model_pkl := model_pkl w;
     np_random := np_random w;
     cache_load_data := cache_load_data w;
     trace := trace w ++ [ev] |}.

Definition write_model_pkl (p : Pickle) (w : World) : World :=
  {| crop_data_csv := crop_data_csv w;
     model_pkl := Some p;
     np_random := np_random w;
     cache_load_data := cache_load_data w;
     trace := trace w |}.

Definition fill_cache (df : DataFrame) (w : World) : World :=
  {| crop_data_csv := crop_data_csv w;
     model_pkl := model_pkl w;
     np_random := np_random w;
     cache_load_data := Some df;
     trace := trace w |}.

(** ** The monad of the script: state and exceptions *)

Definition M (A : Type) : Type := World -> outcome A * World.

Definition ret {A} (a : A) : M A := fun w => (Return a, w).

Definition bind {A B} (c : M A) (k : A -> M B) : M B :=
  fun w =>
    match c w with
    | (Return a, w') => k a w'
    | (Raise e, w') => (Raise e, w')
    | (Stop, w') => (Stop, w')
    end.

Definition raise {A} (e : exn) : M A := fun w => (Raise e, w).

(** A call into a library that returns or raises, and touches nothing. *)
Definition lift {A} (r : result A) : M A :=
  fun w =>
    match r with
    | inl e => (Raise e, w)
    | inr a => (Return a, w)
    end.

Definition log (ev : event) : M unit := fun w => (Return tt, emit ev w).

(** [st.stop()] *)
Definition st_stop {A} : M A := fun w => (Stop, w).

(** [try: body  except <classes>: handler] *)
Definition try_except {A} (body : M A) (classes : exn_class -> bool)
    (handler : exn -> M A) : M A :=
  fun w =>
    match body w with
    | (Raise e, w') =>
        if classes (class_of e) then handler e w' else (Raise e, w')
    | r => r
    end.

Declare Scope py_scope.
Delimit Scope py_scope with py.
Notation "x <- c ;; k" := (bind c (fun x => k))
  (at level 100, c at next level, right associativity) : py_scope.
Notation "c ;; k" := (bind c (fun _ => k))
  (at level 100, right associativity) : py_scope.
Open Scope py_scope.

(** [except Exception] *)
Definition Exception (c : exn_class) : bool := true.

(** ** 1. Loading the data: [load_data] *)

Definition encodings : list str :=
  [utf8 "utf-8"; utf8 "gbk"; utf8 "utf-16"; utf8 "utf-8-sig"].

(** [pd.read_csv('crop_data.csv', encoding=encoding)] *)
Definition pd_read_csv (encoding : str) : M DataFrame :=
  fun w =>
    let w' := emit (Call_read_csv encoding) w in
    match crop_data_csv w encoding with
    | inl e => (Raise e, w')
    | inr df => (Return df, w')
    end.

(** [.str.strip().str.replace(' ', '').str.replace('(', '').str.replace(')', '')]
    on one label. *)
Definition normalize_label (c : str) : str :=
  remove_char rparen (remove_char lparen (remove_char space (strip c))).

Definition normalize_columns (df : DataFrame) : DataFrame :=
  {| columns := map normalize_label (columns df); rows := rows df |}.

(** [except (UnicodeDecodeError, FileNotFoundError)] *)
Definition decode_or_missing (c : exn_class) : bool :=
  match c with
  | UnicodeDecodeError | FileNotFoundError => true
  | _ => false
  end.

Definition load_failed_text : str :=
  utf8 "无法加载数据文件，请检查：" ++ [newline] ++
  utf8 "1. 文件是否存在" ++ [newline] ++
  utf8 "2. 文件编码格式".

(** The [for encoding in encodings] loop and what follows it. *)
Fixpoint load_data_loop (encs : list str) : M DataFrame :=
  match encs with
  | [] =>
      log (St_error [Text load_failed_text]);;
      st_stop
  | encoding :: rest =>
      try_except
        (df <- pd_read_csv encoding;;
         ret (normalize_columns df))
        decode_or_missing
        (fun _ => load_data_loop rest)
  end.

Definition load_data_body : M DataFrame := load_data_loop encodings.

(** [@st.cache_data]: a stored result is returned without running the
    body; a result is stored only when the body returns. *)
Definition st_cache_data (body : M DataFrame) : M DataFrame :=
  fun w =>
    match cache_load_data w with
    | Some df => (Return df, w)
    | None =>
        match body w with
        | (Return df, w') => (Return df, fill_cache df w')
        | r => r
        end
    end.

Definition load_data : M DataFrame := st_cache_data load_data_body.

(** ** Selecting columns of a frame *)

(** The positions, from [i] on, of the columns labelled [name]. *)
Fixpoint positions (name : str) (cols : list str) (i : nat) : list nat :=
  match cols with
  | [] => []
  | c :: cs =>
      (if str_eqb c name then [i] else []) ++ positions name cs (S i)
  end.

Definition take_columns (ps : list nat) (df : DataFrame) : DataFrame :=
  {| columns := map (fun p => nth p (columns df) []) ps;
     rows := map (fun r => map (fun p => nth p r VNaN) ps) (rows df) |}.

Definition quote : N := 39.

(** [KeyError(name)]; its [str] is the [repr] of the label. *)
Definition key_error (name : str) : exn :=
  Exn KeyError ([quote] ++ name ++ [quote]).

Fixpoint locate (names cols : list str) : exn + list nat :=
  match names with
  | [] => inr []
  | n :: ns =>
      match positions n cols 0 with
      | [] => inl (key_error n)
      | ps =>
          match locate ns cols with
          | inl e => inl e
          | inr qs => inr (ps ++ qs)
          end
      end
  end.

(** [df[[n1, n2, ...]]]: the columns with these labels, in the order of the
    list; a label borne by several columns selects them all. *)
Definition getitem_list (df : DataFrame) (names : list str) : result DataFrame :=
  match locate names (columns df) with
  | inl e => inl e
  | inr ps => inr (take_columns ps df)
  end.

(** [df[name]], kept as the frame of the columns labelled [name] (one
    column when the label is unique). *)
Definition getitem (df : DataFrame) (name : str) : result DataFrame :=
  getitem_list df [name].

(** ** 2. Training: [train_model] *)

(** The accepted names of each kind of column, in the order they are
    looked for. *)
Definition month_names : list str := [utf8 "种植月"; utf8 "月份"; utf8 "month"].
Definition temp_names : list str := [utf8 "温度℃"; utf8 "温度"; utf8 "temp"].
Definition rain_names : list str := [utf8 "降雨mm"; utf8 "降雨"; utf8 "rain"].
Definition ph_names : list str := [utf8 "土壤pH"; utf8 "pH值"; utf8 "ph"].
Definition crop_names : list str := [utf8 "作物"; utf8 "crop"].

Definition col_mapping : list (str * list str) :=
  [ (utf8 "month", month_names);
    (utf8 "temp", temp_names);
    (utf8 "rain", rain_names);
    (utf8 "ph", ph_names);
    (utf8 "crop", crop_names) ].

(** A [dict] from [str] to [str], in insertion order. *)
Definition dict := list (str * str).

Fixpoint dict_set (k v : str) (d : dict) : dict :=
  match d with
  | [] => [(k, v)]
  | (k', v') :: d' =>
      if str_eqb k' k then (k, v) :: d' else (k', v') :: dict_set k v d'
  end.

Fixpoint dict_get (k : str) (d : dict) : option str :=
  match d with
  | [] => None
  | (k', v) :: d' => if str_eqb k' k then Some v else dict_get k d'
  end.

(** [d[k]] *)
Definition dict_item (d : dict) (k : str) : result str :=
  match dict_get k d with
  | Some v => inr v
  | None => inl (key_error k)
  end.

(** [name in df.columns] *)
Definition in_columns (name : str) (cols : list str) : bool :=
  existsb (str_eqb name) cols.

(** The inner [for name in possible_names] loop: the name it breaks on. *)
Fixpoint first_present (possible_names cols : list str) : option str :=
  match possible_names with
  | [] => None
  | name :: rest =>
      if in_columns name cols then Some name else first_present rest cols
  end.

Definition no_match_text : str := utf8 "找不到匹配的列：".

(** The outer [for col_type, possible_names in col_mapping.items()] loop,
    with the [else] branch of the inner one. *)
Fixpoint select_columns (mapping : list (str * list str)) (cols : list str)
    (selected_cols : dict) : M dict :=
  match mapping with
  | [] => ret selected_cols
  | (col_type, possible_names) :: rest =>
      match first_present possible_names cols with
      | Some name =>
          select_columns rest cols (dict_set col_type name selected_cols)
      | None =>
          log (St_error [Text no_match_text; FmtList possible_names]);;
          st_stop
      end
  end.

(** [joblib.dump(model, 'model.pkl')] *)
Definition joblib_dump (m : Model) : M unit :=
  fun w => (Return tt, emit (Call_dump m) (write_model_pkl (Pickled m) w)).

Definition no_such_file_text : str :=
  utf8 "[Errno 2] No such file or directory: 'model.pkl'".

(** [joblib.load('model.pkl')] *)
Definition joblib_load : M Model :=
  fun w =>
    match model_pkl w with
    | None => (Raise (Exn FileNotFoundError no_such_file_text), w)
    | Some (Pickled m) => (Return m, w)
    | Some (Unreadable e) => (Raise e, w)
    end.

(** scikit-learn's [check_random_state]: an integer seeds a generator of
    its own, [None] takes NumPy's global one. *)
Definition check_random_state (seed : option Z) (w : World) : Z :=
  match seed with
  | Some s => s
  | None => np_random w
  end.

(** [DecisionTreeClassifier(max_depth=3, random_state=42)] *)
Definition tree_estimator : Estimator :=
  {| max_depth := 3; random_state := Some 42%Z |}.

Section Trainer.

(** The tree learner of scikit-learn, an opaque collaborator: from the
    depth bound, the random generator, the feature frame and the target it
    grows a tree, given by its decision, or raises. *)
Variable grow : nat -> Z -> DataFrame -> DataFrame -> exn + Decision.

(** [est.fit(X, y)] *)
Definition fit (est : Estimator) (X y : DataFrame) : M Model :=
  fun w =>
    let w' := emit (Call_fit est X y) w in
    match grow (max_depth est) (check_random_state (random_state est) w) X y with
    | inl e => (Raise e, w')
    | inr t => (Return {| feature_names_in_ := columns X; decide := t |}, w')
    end.

Definition train_model (df : DataFrame) : M Model :=
  log Call_train_model;;
  selected_cols <- select_columns col_mapping (columns df) [];;
  c_month <- lift (dict_item selected_cols (utf8 "month"));;
  c_temp <- lift (dict_item selected_cols (utf8 "temp"));;
  c_rain <- lift (dict_item selected_cols (utf8 "rain"));;
  c_ph <- lift (dict_item selected_cols (utf8 "ph"));;
  X <- lift (getitem_list df [c_month; c_temp; c_rain; c_ph]);;
  c_crop <- lift (dict_item selected_cols (utf8 "crop"));;
  y <- lift (getitem df c_crop);;
  model <- fit tree_estimator X y;;
  joblib_dump model;;
  ret model.

End Trainer.

(** ** 3. The page: inputs, prediction, description *)

(** The bounds of the four input widgets:
    [st.slider(..., 1, 12, 5)], [st.slider(..., 0, 40, 25)],
    [st.number_input(..., 0, 2000, 800)], [st.slider(..., 3.0, 9.0, 6.5)].
    A widget returns a value between its bounds, both included. *)
Definition month_min : Z := 1.
Definition month_max : Z := 12.
Definition temp_min : Z := 0.
Definition temp_max : Z := 40.
Definition rain_min : Z := 0.
Definition rain_max : Z := 2000.
Definition ph_min : Q := 3.
Definition ph_max : Q := 9.

Definition in_range (month temp rain : Z) (ph : Q) : Prop :=
  (month_min <= month <= month_max)%Z /\
  (temp_min <= temp <= temp_max)%Z /\
  (rain_min <= rain <= rain_max)%Z /\
  (ph_min <= ph)%Q /\ (ph <= ph_max)%Q.

(** The labels the page uses, written out in the script. *)
Definition predict_columns : list str :=
  [utf8 "种植月"; utf8 "温度℃"; utf8 "降雨mm"; utf8 "土壤pH"].

(** [pd.DataFrame([[month, temp, rain, ph]], columns=[...])] *)
Definition input_data (month temp rain : Z) (ph : Q) : DataFrame :=
  {| columns := predict_columns;
     rows := [[VNum (inject_Z month); VNum (inject_Z temp);
               VNum (inject_Z rain); VNum ph]] |}.

Fixpoint labels_eqb (a b : list str) : bool :=
  match a, b with
  | [], [] => true
  | x :: a', y :: b' => str_eqb x y && labels_eqb a' b'
  | _, _ => false
  end.

Fixpoint as_floats (r : list value) : option (list Q) :=
  match r with
  | [] => Some []
  | VNum q :: r' =>
      match as_floats r' with
      | Some qs => Some (q :: qs)
      | None => None
      end
  | _ :: _ => None
  end.

Fixpoint all_floats (rs : list (list value)) : option (list (list Q)) :=
  match rs with
  | [] => Some []
  | r :: rs' =>
      match as_floats r, all_floats rs' with
      | Some x, Some xs => Some (x :: xs)
      | _, _ => None
      end
  end.

(** [a < b] on two strings: the order of their code points. *)
Fixpoint str_ltb (a b : str) : bool :=
  match a, b with
  | _, [] => false
  | [], _ :: _ => true
  | x :: a', y :: b' => (x <? y)%N || ((x =? y)%N && str_ltb a' b')
  end.

Fixpoint insert_name (name : str) (sorted : list str) : list str :=
  match sorted with
  | [] => [name]
  | s :: rest =>
      if str_eqb name s then sorted
      else if str_ltb name s then name :: sorted
      else s :: insert_name name rest
  end.

(** [sorted(set(a) - set(b))] *)
Definition sorted_difference (a b : list str) : list str :=
  fold_right insert_name [] (filter (fun x => negb (in_columns x b)) a).

(** scikit-learn's [add_names]: one line per name, five names at most. *)
Fixpoint add_names (names : list str) (room : nat) : str :=
  match names with
  | [] => []
  | name :: rest =>
      match room with
      | O => utf8 "- ..." ++ [newline]
      | S room' => utf8 "- " ++ name ++ [newline] ++ add_names rest room'
      end
  end.

(** The text of the [ValueError] that scikit-learn (1.2 and later) raises
    when the labels of a frame are not those seen by [fit]. *)
Definition feature_names_message (fitted given : list str) : str :=
  let unexpected := sorted_difference given fitted in
  let missing := sorted_difference fitted given in
  utf8 "The feature names should match those that were passed during fit." ++
  [newline] ++
  match unexpected with
  | [] => []
  | _ :: _ =>
      utf8 "Feature names unseen at fit time:" ++ [newline] ++
      add_names unexpected 5
  end ++
  match missing with
  | [] => []
  | _ :: _ =>
      utf8 "Feature names seen at fit time, yet now missing:" ++ [newline] ++
      add_names missing 5
  end ++
  match unexpected, missing with
  | [], [] =>
      utf8 "Feature names must be in the same order as they were in fit." ++
      [newline]
  | _, _ => []
  end.

Definition not_numeric_text : str :=
  utf8 "could not convert string to float".

(** [model.predict(X)] for a frame [X]: scikit-learn (1.2 and later)
    refuses a frame whose column labels are not those seen by [fit], and
    any cell that is not a number; otherwise the fitted tree decides on
    every row. *)
Definition predict (m : Model) (X : DataFrame) : result (list value) :=
  if labels_eqb (columns X) (feature_names_in_ m) then
    match all_floats (rows X) with
    | Some xs => inr (map (decide m) xs)
    | None => inl (Exn ValueError not_numeric_text)
    end
  else inl (Exn ValueError
              (feature_names_message (feature_names_in_ m) (columns X))).

Definition out_of_bounds_text : str :=
  utf8 "single positional indexer is out-of-bounds".

Definition index_0_text : str :=
  utf8 "index 0 is out of bounds for axis 0 with size 0".

(** [a[0]] on the array of predictions. *)
Definition item_0 (a : list value) : result value :=
  match a with
  | v :: _ => inr v
  | [] => inl (Exn IndexError index_0_text)
  end.

Definition duplicate_labels_text : str :=
  utf8 "cannot reindex on an axis with duplicate labels".

(** [df[name] == v]: the boolean mask over the rows, for a label borne by
    one column. With no such column pandas raises [KeyError]; with several
    the comparison is a frame, not a mask of rows, and the row selection
    that follows is taken to raise. *)
Definition column_equals (df : DataFrame) (name : str) (v : value)
    : result (list bool) :=
  match positions name (columns df) 0 with
  | [] => inl (key_error name)
  | [p] => inr (map (fun r => value_eqb (nth p r VNaN) v) (rows df))
  | _ :: _ :: _ => inl (Exn ValueError duplicate_labels_text)
  end.

(** [df[mask]]: the rows where the mask holds. *)
Fixpoint select_rows (rs : list (list value)) (mask : list bool)
    : list (list value) :=
  match rs, mask with
  | r :: rs', b :: mask' =>
      if b then r :: select_rows rs' mask' else select_rows rs' mask'
  | _, _ => []
  end.

Definition boolean_filter (df : DataFrame) (mask : list bool) : DataFrame :=
  {| columns := columns df; rows := select_rows (rows df) mask |}.

(** [df.iloc[0]] *)
Definition iloc_0 (df : DataFrame) : result Series :=
  match rows df with
  | r :: _ => inr {| index := columns df; values := r |}
  | [] => inl (Exn IndexError out_of_bounds_text)
  end.

(** [row[name]] inside an f-string: the cell under the label, or the cells
    when several columns bear it; [KeyError] when none does. *)
Definition series_item (row : Series) (name : str) : result piece :=
  match positions name (index row) 0 with
  | [] => inl (key_error name)
  | [p] => inr (Fmt (nth p (values row) VNaN))
  | ps => inr (FmtCells (map (fun p => nth p (values row) VNaN) ps))
  end.

Definition indent : str := repeat space 12.

(** [except FileNotFoundError] *)
Definition file_not_found (c : exn_class) : bool :=
  match c with
  | FileNotFoundError => true
  | _ => false
  end.

(** The second [try] of the button: predict, announce the crop, look up
    its first record in the table and show it; whatever is raised on the
    way is reported by the one handler. *)
Definition show_recommendation (model : Model) (df : DataFrame)
    (month temp rain : Z) (ph : Q) : M unit :=
  try_except
    (predictions <- lift (predict model (input_data month temp rain ph));;
     crop <- lift (item_0 predictions);;
     log (St_success [Text (utf8 "## 推荐种植: "); Fmt crop]);;
     mask <- lift (column_equals df (utf8 "作物") crop);;
     crop_info <- lift (iloc_0 (boolean_filter df mask));;
     i_temp <- lift (series_item crop_info (utf8 "温度℃"));;
     i_rain <- lift (series_item crop_info (utf8 "降雨mm"));;
     i_ph <- lift (series_item crop_info (utf8 "土壤pH"));;
     log (St_markdown
            [Text ([newline] ++ indent ++ utf8 "**📊 种植信息:**" ++
                   [newline] ++ indent ++ utf8 "- 适宜温度: ");
             i_temp;
             Text (utf8 "℃" ++ [newline] ++ indent ++ utf8 "- 需水量: ");
             i_rain;
             Text (utf8 "mm" ++ [newline] ++ indent ++ utf8 "- 最佳pH: ");
             i_ph;
             Text ([newline] ++ indent)]);;
     i_issues <- lift (series_item crop_info (utf8 "常见问题"));;
     i_yield <- lift (series_item crop_info (utf8 "产量等级"));;
     log (St_markdown
            [Text ([newline] ++ indent ++ utf8 "**⚠️ 常见问题:**" ++
                   [newline] ++ indent ++ utf8 "- ");
             i_issues;
             Text ([newline] ++ indent ++ utf8 "- 预计产量: ");
             i_yield;
             Text ([newline] ++ indent)]))
    Exception
    (fun e => log (St_error [Text (utf8 "预测失败: " ++ exn_str e)])).

Definition page_title : event :=
  St_title [Text (utf8 "🌱 智能作物推荐系统")].

(** Whether no label occurs twice: [df.columns.is_unique]. *)
Fixpoint is_unique (cols : list str) : bool :=
  match cols with
  | [] => true
  | c :: rest => negb (in_columns c rest) && is_unique rest
  end.

(** [repr] of a list of strings, ['a', 'b'], as Python renders labels made
    of printable characters other than the quote and the backslash. *)
Fixpoint repr_names (names : list str) : str :=
  match names with
  | [] => []
  | [name] => [quote] ++ name ++ [quote]
  | name :: rest => [quote] ++ name ++ [quote] ++ utf8 ", " ++ repr_names rest
  end.

Definition duplicate_columns_text (cols : list str) : str :=
  utf8 "Duplicate column names found: [" ++ repr_names cols ++ utf8 "]".

(** [st.dataframe(df)]: the table goes to the page through Arrow, which
    refuses a frame with a repeated label with a [ValueError] that lists
    the labels. *)
Definition st_dataframe (df : DataFrame) : M unit :=
  if is_unique (columns df) then log (St_dataframe df)
  else raise (Exn ValueError (duplicate_columns_text (columns df))).

Section Script.

Variable grow : nat -> Z -> DataFrame -> DataFrame -> exn + Decision.

(** The first [try] of the button: the stored model, or a model trained
    now when [joblib.load] raises [FileNotFoundError]. *)
Definition load_or_train (df : DataFrame) : M Model :=
  try_except joblib_load file_not_found
    (fun _ =>
       log (St_spinner [Text (utf8 "首次运行正在训练模型...")]);;
       train_model grow df).

(** The body of [if st.button(...)]: one recommendation request. *)
Definition recommend (df : DataFrame) (month temp rain : Z) (ph : Q) : M unit :=
  model <- load_or_train df;;
  show_recommendation model df month temp rain ph.

(** The script, run once from top to bottom with the values of the four
    widgets and whether the button was pressed. Calls that only lay out
    the page ([set_page_config], [sidebar], [columns], [expander]) leave no
    event. *)
Definition app (month temp rain : Z) (ph : Q) (button : bool) : M unit :=
  log page_title;;
  df <- try_except
          (df <- load_data;;
           log (St_success [Text (utf8 "数据加载成功！")]);;
           ret df)
          Exception
          (fun e =>
             log (St_error [Text (utf8 "数据加载失败：" ++ exn_str e)]);;
             st_stop);;
  log (St_header [Text (utf8 "🛠️ 环境参数")]);;
  (if button then recommend df month temp rain ph else ret tt);;
  st_dataframe df;;
  log (St_caption
         [Text (utf8 "注意：本推荐结果基于历史数据，实际种植请结合当地具体情况。")]).

End Script.

(** ** Sample tables and worlds *)

Definition num (z : Z) : value := VNum (inject_Z z).

(** A table as [read_csv] delivers it: labels still carry the units in
    parentheses. *)
Definition rice_raw : DataFrame :=
  {| columns := [utf8 "种植月"; utf8 "温度(℃)"; utf8 "降雨(mm)"; utf8 "土壤pH";
                 utf8 "作物"; utf8 "常见问题"; utf8 "产量等级"];
     rows := [[num 5; num 25; num 800; VNum (13 # 2); VStr (utf8 "Rice");
               VStr (utf8 "Blight"); VStr (utf8 "High")]] |}.

(** The same table with the month under its second alias. *)
Definition rice_alias : DataFrame :=
  {| columns := [utf8 "月份"; utf8 "温度℃"; utf8 "降雨mm"; utf8 "土壤pH";
                 utf8 "作物"; utf8 "常见问题"; utf8 "产量等级"];
     rows := rows rice_raw |}.

(** A table without any column for the soil pH. *)
Definition no_ph : DataFrame :=
  {| columns := [utf8 "种植月"; utf8 "温度℃"; utf8 "降雨mm"; utf8 "作物"];
     rows := [[num 5; num 25; num 800; VStr (utf8 "Rice")]] |}.

(** A table whose first label hides a tab between parentheses. *)
Definition tab_label : DataFrame :=
  {| columns := [utf8 "a(" ++ [9%N] ++ utf8 ")"; utf8 "b"];
     rows := [[num 1; num 2]] |}.

Definition decode_error : exn :=
  Exn UnicodeDecodeError (utf8 "'utf-8' codec can't decode byte 0xb5 in position 0: invalid start byte").

Definition missing_file : exn :=
  Exn FileNotFoundError (utf8 "[Errno 2] No such file or directory: 'crop_data.csv'").

Definition parser_error : exn :=
  Exn (OtherError (utf8 "ParserError"))
      (utf8 "Error tokenizing data. C error: EOF inside string starting at row 0").

(** A fresh process: nothing cached, nothing on the page. *)
Definition fresh (csv : str -> exn + DataFrame) (pkl : option Pickle) : World :=
  {| crop_data_csv := csv;
     model_pkl := pkl;
     np_random := 0;
     cache_load_data := None;
     trace := [] |}.

(** A file that every encoding reads as [df]. *)
Definition readable (df : DataFrame) : str -> exn + DataFrame :=
  fun _ => inr df.

(** A file that no encoding decodes. *)
Definition undecodable : str -> exn + DataFrame :=
  fun _ => inl decode_error.

(** No file at all. *)
Definition absent : str -> exn + DataFrame :=
  fun _ => inl missing_file.

(** A file in UTF-16 among whose bytes the UTF-8 attempt meets a quote
    that is never closed: the tokenizer raises before anything is
    decoded. *)
Definition utf16_stray_quote : str -> exn + DataFrame :=
  fun encoding =>
    if str_eqb encoding (utf8 "utf-8") then inl parser_error
    else if str_eqb encoding (utf8 "utf-16") then inr rice_raw
    else inl decode_error.

(** A file in UTF-16: the first two attempts fail to decode it. *)
Definition utf16_file : str -> exn + DataFrame :=
  fun encoding =>
    if str_eqb encoding (utf8 "utf-16") then inr rice_raw
    else inl decode_error.

(** A learner whose tree is a single leaf, the first target value. *)
Definition stump (depth : nat) (rng : Z) (X y : DataFrame) : exn + Decision :=
  match rows y with
  | (v :: _) :: _ => inr (fun _ => v)
  | _ => inl (Exn ValueError (utf8 "Found array with 0 sample(s)"))
  end.

(** A model fitted on the labels the page uses, always answering [label]. *)
Definition constant_model (label : value) : Model :=
  {| feature_names_in_ := predict_columns; decide := fun _ => label |}.

(** A world with another generator state and a model already on disk. *)
Definition lived_in : World :=
  {| crop_data_csv := readable rice_raw;
     model_pkl := Some (Pickled (constant_model (VStr (utf8 "Maize"))));
     np_random := 7;
     cache_load_data := Some (normalize_columns rice_raw);
     trace := [page_title] |}.

(** The sample table as the loader returns it. *)
Definition rice : DataFrame := normalize_columns rice_raw.

(** A process that finds [model] in [model.pkl]. *)
Definition with_model (model : Model) : World :=
  fresh (readable rice_raw) (Some (Pickled model)).

(** The announcement of a crop, and the report of the handler of the
    second [try]. *)
Definition announced (label : value) : event :=
  St_success [Text (utf8 "## 推荐种植: "); Fmt label].

Definition prediction_failed (e : exn) : event :=
  St_error [Text (utf8 "预测失败: " ++ exn_str e)].

(** ** What a run adds to the trace *)

(** The encodings handed to [read_csv], in order. *)
Fixpoint reads (t : list event) : list str :=
  match t with
  | [] => []
  | Call_read_csv enc :: t' => enc :: reads t'
  | _ :: t' => reads t'
  end.

Definition is_training (ev : event) : bool :=
  match ev with
  | Call_train_model | Call_fit _ _ _ | Call_dump _ => true
  | _ => false
  end.

(** The elements put on the page, as opposed to calls. *)
Definition is_page (ev : event) : bool :=
  match ev with
  | St_title _ | St_header _ | St_success _ | St_error _ | St_spinner _
  | St_markdown _ | St_dataframe _ | St_caption _ => true
  | _ => false
  end.

(** A computation that only puts elements on the page: it leaves
    [model.pkl] alone and calls neither the loader nor the trainer. *)
Definition quiet {A} (c : M A) : Prop :=
  forall w,
    model_pkl (snd (c w)) = model_pkl w /\
    exists added,
      trace (snd (c w)) = trace w ++ added /\
      forallb is_page added = true.

(** Whether a text occurs in a message. *)
Definition piece_mentions (needle : str) (p : piece) : bool :=
  match p with
  | Text s => contains needle s
  | Fmt (VStr s) => contains needle s
  | Fmt _ => false
  | FmtCells vs =>
      existsb (fun v => match v with VStr s => contains needle s | _ => false end) vs
  | FmtList l => existsb (contains needle) l
  end.

Definition mentions (needle : str) (m : message) : bool :=
  existsb (piece_mentions needle) m.

(** An attempt that the loader's [except] clause absorbs. *)
Definition absorbed (r : exn + DataFrame) : Prop :=
  match r with
  | inl e => decode_or_missing (class_of e) = true
  | inr _ => False
  end.

(** The world after [read_csv] was called with each of [encs]. *)
Definition after_reads (encs : list str) (w : World) : World :=
  fold_left (fun w enc => emit (Call_read_csv enc) w) encs w.

(** ** Names for the elements of the page *)

(** The success banner of the loader's caller, the header of the sidebar
    and the caption at the foot of the page. *)
Definition loaded_banner : event := St_success [Text (utf8 "数据加载成功！")].

Definition sidebar_header : event := St_header [Text (utf8 "🛠️ 环境参数")].

Definition disclaimer : event :=
  St_caption
    [Text (utf8 "注意：本推荐结果基于历史数据，实际种植请结合当地具体情况。")].

Definition training_spinner : event :=
  St_spinner [Text (utf8 "首次运行正在训练模型...")].

(** The two panels of a recommendation, as the two f-strings of the
    prediction block build them. *)
Definition planting_panel (i_temp i_rain i_ph : piece) : event :=
  St_markdown
    [Text ([newline] ++ indent ++ utf8 "**📊 种植信息:**" ++
           [newline] ++ indent ++ utf8 "- 适宜温度: ");
     i_temp;
     Text (utf8 "℃" ++ [newline] ++ indent ++ utf8 "- 需水量: ");
     i_rain;
     Text (utf8 "mm" ++ [newline] ++ indent ++ utf8 "- 最佳pH: ");
     i_ph;
     Text ([newline] ++ indent)].

Definition issues_panel (i_issues i_yield : piece) : event :=
  St_markdown
    [Text ([newline] ++ indent ++ utf8 "**⚠️ 常见问题:**" ++
           [newline] ++ indent ++ utf8 "- ");
     i_issues;
     Text ([newline] ++ indent ++ utf8 "- 预计产量: ");
     i_yield;
     Text ([newline] ++ indent)].

(** Two lists of labels naming the same columns, in whatever order and
    however often. *)
Definition same_labels (cols cols' : list str) : Prop :=
  forall x, In x cols <-> In x cols'.

(** The sample table with its columns in another order. *)
Definition rice_shuffled : DataFrame :=
  {| columns := [utf8 "作物"; utf8 "土壤pH"; utf8 "产量等级"; utf8 "降雨mm";
                 utf8 "常见问题"; utf8 "温度℃"; utf8 "种植月"];
     rows := [[VStr (utf8 "Rice"); VNum (13 # 2); VStr (utf8 "High"); num 800;
               VStr (utf8 "Blight"); num 25; num 5]] |}.

(** A table whose crop column bears its second accepted name. *)
Definition rice_crop_alias : DataFrame :=
  {| columns := [utf8 "种植月"; utf8 "温度℃"; utf8 "降雨mm"; utf8 "土壤pH";
                 utf8 "crop"; utf8 "常见问题"; utf8 "产量等级"];
     rows := rows rice_raw |}.

(** Two records for the same crop, with different remarks. *)
Definition two_rice : DataFrame :=
  {| columns := columns rice;
     rows := [[num 3; num 18; num 300; VNum 6; VStr (utf8 "Wheat");
               VStr (utf8 "Rust"); VStr (utf8 "Medium")];
              [num 5; num 25; num 800; VNum (13 # 2); VStr (utf8 "Rice");
               VStr (utf8 "Blight"); VStr (utf8 "High")];
              [num 6; num 28; num 900; VNum 6; VStr (utf8 "Rice");
               VStr (utf8 "Borer"); VStr (utf8 "Low")]] |}.

(** A learner that always raises. *)
Definition failing_learner (depth : nat) (rng : Z) (X y : DataFrame)
    : exn + Decision :=
  inl (Exn ValueError (utf8 "could not convert string to float")).

(** What Python's utf-16 codec raises on bytes without a byte-order mark:
    a [UnicodeError], the parent class of [UnicodeDecodeError], which the
    loader's [except] clause does not list. *)
Definition no_bom_error : exn :=
  Exn (OtherError (utf8 "UnicodeError"))
      (utf8 "UTF-16 stream does not start with BOM").

(** A file in an encoding outside the list, without a byte-order mark: no
    attempt decodes it, and the UTF-16 attempt fails in its own way. *)
Definition bom_less_file : str -> exn + DataFrame :=
  fun encoding =>
    if str_eqb encoding (utf8 "utf-16") then inl no_bom_error
    else inl decode_error.

(** A [model.pkl] that exists but refers to a companion file that is no
    longer there: loading it raises [FileNotFoundError]. *)
Definition orphaned_artifact : Pickle :=
  Unreadable
    (Exn FileNotFoundError
       (utf8 "[Errno 2] No such file or directory: 'model.pkl_01.npy'")).

(** A [model.pkl] of garbage bytes. *)
Definition garbage_artifact : Pickle :=
  Unreadable (Exn KeyError (utf8 "120")).

(** The sample table with blanks, tabs and line ends around its labels. *)
Definition rice_padded : DataFrame :=
  {| columns := [[9%N] ++ utf8 "种植月 "; utf8 " 温度 (℃)" ++ [9%N];
                 utf8 "降雨(mm)" ++ [13%N]; [12288%N] ++ utf8 "土壤pH";
                 utf8 "作物 "; utf8 "常见问题"; utf8 "产量等级"];
     rows := rows rice_raw |}.

(** A table two labels of which differ by a blank only: after the
    normalization both are 作物. *)
Definition twin_labels : DataFrame :=
  {| columns := [utf8 "种植月"; utf8 "温度℃"; utf8 "降雨mm"; utf8 "土壤pH";
                 utf8 "作物"; utf8 "作物 "];
     rows := [[num 5; num 25; num 800; VNum (13 # 2); VStr (utf8 "Rice");
               VStr (utf8 "Rice")]] |}.

(** * Properties *)

Example utf8_ascii : utf8 "ph" = [112; 104]%N.
Proof. reflexivity. Qed.

Example utf8_cjk : utf8 "种植月" = [31181; 26893; 26376]%N.
Proof. reflexivity. Qed.

Example utf8_degree : utf8 "温度℃" = [28201; 24230; 8451]%N.
Proof. reflexivity. Qed.

Example normalize_units :
  map normalize_label (columns rice_raw) =
  [utf8 "种植月"; utf8 "温度℃"; utf8 "降雨mm"; utf8 "土壤pH";
   utf8 "作物"; utf8 "常见问题"; utf8 "产量等级"].
Proof. reflexivity. Qed.

(** ** Strings *)

Lemma str_eqb_eq (a b : str) : str_eqb a b = true <-> a = b.
Proof.
  revert b. induction a as [|x a IH]; intros [|y b]; simpl;
    try (split; [discriminate|discriminate]); [split; auto|].
  rewrite andb_true_iff, N.eqb_eq, IH. split.
  - now intros [-> ->].
  - intros H. injection H as -> ->. auto.
Qed.

Lemma str_eqb_refl (a : str) : str_eqb a a = true.
Proof. now apply str_eqb_eq. Qed.

Lemma remove_char_absent (c : N) (s : str) : ~ In c (remove_char c s).
Proof.
  unfold remove_char. intros H. apply filter_In in H as [_ H].
  rewrite N.eqb_refl in H. discriminate.
Qed.

Lemma remove_char_incl (c x : N) (s : str) : In x (remove_char c s) -> In x s.
Proof. unfold remove_char. intros H. now apply filter_In in H. Qed.

Lemma lstrip_incl (x : N) (s : str) : In x (lstrip s) -> In x s.
Proof.
  induction s as [|c s IH]; simpl; auto.
  destruct (isspace c); simpl; auto.
Qed.

Lemma strip_incl (x : N) (s : str) : In x (strip s) -> In x s.
Proof.
  unfold strip, rstrip. intros H.
  apply in_rev in H. apply lstrip_incl in H. apply in_rev in H.
  now apply lstrip_incl.
Qed.

Lemma lstrip_no_space (s : str) :
  (forall x, In x s -> isspace x = false) -> lstrip s = s.
Proof.
  destruct s as [|c s]; simpl; auto.
  intros H. now rewrite (H c (or_introl eq_refl)).
Qed.

Lemma strip_no_space (s : str) :
  (forall x, In x s -> isspace x = false) -> strip s = s.
Proof.
  intros H. unfold strip, rstrip.
  rewrite (lstrip_no_space s H).
  rewrite lstrip_no_space, rev_involutive; auto.
  intros x Hx. apply H. now apply in_rev.
Qed.

Lemma normalize_label_incl (x : N) (raw : str) :
  In x (normalize_label raw) -> In x raw.
Proof.
  unfold normalize_label. intros H.
  do 3 apply remove_char_incl in H. now apply strip_incl.
Qed.

Lemma normalize_label_in_strip (x : N) (raw : str) :
  In x (normalize_label raw) -> In x (strip raw).
Proof.
  unfold normalize_label. intros H.
  now do 3 apply remove_char_incl in H.
Qed.

Lemma normalize_label_clean (raw : str) :
  ~ In space (normalize_label raw) /\
  ~ In lparen (normalize_label raw) /\
  ~ In rparen (normalize_label raw).
Proof.
  unfold normalize_label. repeat split; intros H.
  - do 2 apply remove_char_incl in H. now apply remove_char_absent in H.
  - apply remove_char_incl in H. now apply remove_char_absent in H.
  - now apply remove_char_absent in H.
Qed.

(** ** The loader *)

Lemma trace_emit (ev : event) (w : World) :
  trace (emit ev w) = trace w ++ [ev].
Proof. reflexivity. Qed.

Lemma trace_after_reads (encs : list str) (w : World) :
  trace (after_reads encs w) = trace w ++ map Call_read_csv encs.
Proof.
  revert w. induction encs as [|e encs IH]; intros w; simpl.
  - now rewrite app_nil_r.
  - rewrite IH. simpl. now rewrite <- app_assoc.
Qed.

Lemma csv_after_reads (encs : list str) (w : World) :
  crop_data_csv (after_reads encs w) = crop_data_csv w.
Proof.
  revert w. induction encs as [|e encs IH]; intros w; simpl; auto.
  now rewrite IH.
Qed.

Lemma pkl_after_reads (encs : list str) (w : World) :
  model_pkl (after_reads encs w) = model_pkl w.
Proof.
  revert w. induction encs as [|e encs IH]; intros w; simpl; auto.
  now rewrite IH.
Qed.

Lemma after_reads_app (pre post : list str) (w : World) :
  after_reads (pre ++ post) w = after_reads post (after_reads pre w).
Proof. unfold after_reads. apply fold_left_app. Qed.

(** An attempt that parses ends the loop with its normalized table. *)
Lemma loop_parsed (e : str) (rest : list str) (w : World) (df : DataFrame) :
  crop_data_csv w e = inr df ->
  load_data_loop (e :: rest) w =
  (Return (normalize_columns df), after_reads [e] w).
Proof.
  intros H. simpl. unfold try_except, bind, pd_read_csv. now rewrite H.
Qed.

(** An attempt raising outside the [except] clause ends the loop too. *)
Lemma loop_raised (e : str) (rest : list str) (w : World) (ex : exn) :
  crop_data_csv w e = inl ex ->
  decode_or_missing (class_of ex) = false ->
  load_data_loop (e :: rest) w = (Raise ex, after_reads [e] w).
Proof.
  intros H Hc. simpl. unfold try_except, bind, pd_read_csv.
  rewrite H. now rewrite Hc.
Qed.

(** Absorbed attempts are passed over, one [read_csv] call each. *)
Lemma loop_absorbed (pre rest : list str) (w : World) :
  (forall x, In x pre -> absorbed (crop_data_csv w x)) ->
  load_data_loop (pre ++ rest) w = load_data_loop rest (after_reads pre w).
Proof.
  revert w. induction pre as [|e pre IH]; intros w H; auto.
  assert (He := H e (or_introl eq_refl)).
  change (load_data_loop ((e :: pre) ++ rest) w)
    with (try_except
            (df <- pd_read_csv e;; ret (normalize_columns df))
            decode_or_missing
            (fun _ => load_data_loop (pre ++ rest)) w).
  unfold try_except, bind, pd_read_csv.
  destruct (crop_data_csv w e) as [ex|df] eqn:E; simpl in He; [|contradiction].
  rewrite He. rewrite IH; auto.
  intros x Hx. simpl. apply H. now right.
Qed.

Lemma loop_exhausted (w : World) :
  load_data_loop [] w = (Stop, emit (St_error [Text load_failed_text]) w).
Proof. reflexivity. Qed.

(** However the loop ends, it has called [read_csv] on a prefix of its
    list, every attempt before the last one was absorbed, and the last
    one decides the outcome. *)
Lemma loop_inv (encs : list str) (w : World) :
  (exists pre e post df,
      encs = pre ++ e :: post /\
      (forall x, In x pre -> absorbed (crop_data_csv w x)) /\
      crop_data_csv w e = inr df /\
      load_data_loop encs w =
      (Return (normalize_columns df), after_reads (pre ++ [e]) w)) \/
  (exists pre e post ex,
      encs = pre ++ e :: post /\
      (forall x, In x pre -> absorbed (crop_data_csv w x)) /\
      crop_data_csv w e = inl ex /\
      decode_or_missing (class_of ex) = false /\
      load_data_loop encs w = (Raise ex, after_reads (pre ++ [e]) w)) \/
  ((forall x, In x encs -> absorbed (crop_data_csv w x)) /\
   load_data_loop encs w =
   (Stop, emit (St_error [Text load_failed_text]) (after_reads encs w))).
Proof.
  revert w. induction encs as [|e encs IH]; intros w.
  - right; right. split; [intros x []|reflexivity].
  - destruct (crop_data_csv w e) as [ex|df] eqn:E.
    + destruct (decode_or_missing (class_of ex)) eqn:Hc.
      * assert (Hab : forall x, In x [e] -> absorbed (crop_data_csv w x)).
        { intros x [<-|[]]. now rewrite E. }
        pose proof (loop_absorbed [e] encs w Hab) as Hskip.
        change ([e] ++ encs) with (e :: encs) in Hskip.
        destruct (IH (after_reads [e] w))
          as [(pre & e' & post & df & -> & Hpre & He' & Hr)
             |[(pre & e' & post & ex' & -> & Hpre & He' & Hc' & Hr)
              |(Hall & Hr)]].
        -- left. exists (e :: pre), e', post, df. repeat split; auto.
           ++ intros x [<-|Hx]; [now rewrite E|now apply Hpre].
           ++ change ((e :: pre) ++ e' :: post) with (e :: pre ++ e' :: post).
              rewrite Hskip, Hr. reflexivity.
        -- right; left. exists (e :: pre), e', post, ex'. repeat split; auto.
           ++ intros x [<-|Hx]; [now rewrite E|now apply Hpre].
           ++ change ((e :: pre) ++ e' :: post) with (e :: pre ++ e' :: post).
              rewrite Hskip, Hr. reflexivity.
        -- right; right. split.
           ++ intros x [<-|Hx]; [now rewrite E|now apply Hall].
           ++ rewrite Hskip, Hr. reflexivity.
      * right; left. exists [], e, encs, ex. repeat split; auto.
        -- intros x [].
        -- now apply loop_raised.
    + left. exists [], e, encs, df. repeat split; auto.
      * intros x [].
      * now apply loop_parsed.
Qed.

(** With nothing cached, [load_data] runs its body and stores what the
    body returns. *)
Lemma load_data_cold (w : World) :
  cache_load_data w = None ->
  load_data w =
  match load_data_body w with
  | (Return df, w') => (Return df, fill_cache df w')
  | r => r
  end.
Proof. intros H. unfold load_data, st_cache_data. now rewrite H. Qed.

Lemma reads_app (a b : list event) : reads (a ++ b) = reads a ++ reads b.
Proof.
  induction a as [|ev a IH]; simpl; auto.
  destruct ev; simpl; auto. now rewrite IH.
Qed.

Lemma reads_calls (encs : list str) : reads (map Call_read_csv encs) = encs.
Proof. induction encs as [|e encs IH]; simpl; auto. now rewrite IH. Qed.

Lemma reads_after_reads (encs : list str) (w : World) :
  reads (trace (after_reads encs w)) = reads (trace w) ++ encs.
Proof. now rewrite trace_after_reads, reads_app, reads_calls. Qed.

(** The diagnostic is reached exactly when every attempt was absorbed. *)
Lemma loop_stop_iff (encs : list str) (w : World) :
  fst (load_data_loop encs w) = Stop <->
  (forall x, In x encs -> absorbed (crop_data_csv w x)).
Proof.
  split.
  - intros H.
    destruct (loop_inv encs w)
      as [(pre & e & post & df & _ & _ & _ & Hr)
         |[(pre & e & post & ex & _ & _ & _ & _ & Hr)|(Hall & _)]]; auto;
      rewrite Hr in H; discriminate.
  - intros H. rewrite <- (app_nil_r encs).
    rewrite (loop_absorbed encs [] w H). reflexivity.
Qed.

Lemma load_data_stop_iff (w : World) :
  cache_load_data w = None ->
  (fst (load_data w) = Stop <->
   (forall x, In x encodings -> absorbed (crop_data_csv w x))).
Proof.
  intros Hc. rewrite <- (loop_stop_iff encodings w).
  rewrite (load_data_cold w Hc). unfold load_data_body.
  destruct (load_data_loop encodings w) as [[df|ex|] w']; simpl;
    split; auto; discriminate.
Qed.

Lemma load_data_exhausted (w : World) :
  cache_load_data w = None ->
  (forall x, In x encodings -> absorbed (crop_data_csv w x)) ->
  load_data w =
  (Stop, emit (St_error [Text load_failed_text]) (after_reads encodings w)).
Proof.
  intros Hc H. rewrite (load_data_cold w Hc). unfold load_data_body.
  rewrite <- (app_nil_r encodings) at 1.
  rewrite (loop_absorbed encodings [] w H). reflexivity.
Qed.

Lemma load_data_parsed (w : World) (pre : list str) (e : str)
    (post : list str) (df : DataFrame) :
  cache_load_data w = None ->
  encodings = pre ++ e :: post ->
  (forall x, In x pre -> absorbed (crop_data_csv w x)) ->
  crop_data_csv w e = inr df ->
  load_data w =
  (Return (normalize_columns df),
   fill_cache (normalize_columns df) (after_reads (pre ++ [e]) w)).
Proof.
  intros Hc Henc Hpre He. rewrite (load_data_cold w Hc). unfold load_data_body.
  rewrite Henc, (loop_absorbed pre (e :: post) w Hpre).
  rewrite (loop_parsed e post (after_reads pre w) (df := df)).
  - now rewrite after_reads_app.
  - now rewrite csv_after_reads.
Qed.

Lemma load_data_raised (w : World) (pre : list str) (e : str)
    (post : list str) (ex : exn) :
  cache_load_data w = None ->
  encodings = pre ++ e :: post ->
  (forall x, In x pre -> absorbed (crop_data_csv w x)) ->
  crop_data_csv w e = inl ex ->
  decode_or_missing (class_of ex) = false ->
  load_data w = (Raise ex, after_reads (pre ++ [e]) w).
Proof.
  intros Hc Henc Hpre He Hx. rewrite (load_data_cold w Hc). unfold load_data_body.
  rewrite Henc, (loop_absorbed pre (e :: post) w Hpre).
  rewrite (loop_raised e post (after_reads pre w) (ex := ex)); auto.
  - now rewrite after_reads_app.
  - now rewrite csv_after_reads.
Qed.

(** The attempts of one call are a prefix of the list of encodings. *)
Lemma load_data_reads (w : World) :
  cache_load_data w = None ->
  exists tried left,
    encodings = tried ++ left /\
    reads (trace (snd (load_data w))) = reads (trace w) ++ tried.
Proof.
  intros Hc. rewrite (load_data_cold w Hc). unfold load_data_body.
  destruct (loop_inv encodings w)
    as [(pre & e & post & df & Henc & _ & _ & Hr)
       |[(pre & e & post & ex & Henc & _ & _ & _ & Hr)|(_ & Hr)]];
    rewrite Hr; cbn [snd].
  - exists (pre ++ [e]), post. split.
    + now rewrite <- app_assoc.
    + apply reads_after_reads.
  - exists (pre ++ [e]), post. split.
    + now rewrite <- app_assoc.
    + apply reads_after_reads.
  - exists encodings, []. split.
    + now rewrite app_nil_r.
    + rewrite trace_emit, reads_app, reads_after_reads. simpl.
      now rewrite app_nil_r.
Qed.

(** ** The caller of the loader *)

(** [st.stop()] inside the loader is not an [Exception]: the script ends
    on the loader's diagnostic and the caller adds nothing. *)
Lemma app_load_stopped
    (grow : nat -> Z -> DataFrame -> DataFrame -> exn + Decision)
    (month temp rain : Z) (ph : Q) (button : bool) (w : World) :
  cache_load_data w = None ->
  (forall x, In x encodings -> absorbed (crop_data_csv w x)) ->
  app grow month temp rain ph button w =
  (Stop, emit (St_error [Text load_failed_text])
           (after_reads encodings (emit page_title w))).
Proof.
  intros Hc H.
  assert (Hl := load_data_exhausted (emit page_title w) Hc H).
  unfold app, bind, log, try_except. now rewrite Hl.
Qed.

(** An exception that leaves the loader is reported by the caller, which
    then stops the script. *)
Lemma app_load_raised
    (grow : nat -> Z -> DataFrame -> DataFrame -> exn + Decision)
    (month temp rain : Z) (ph : Q) (button : bool) (w : World)
    (pre : list str) (e : str) (post : list str) (ex : exn) :
  cache_load_data w = None ->
  encodings = pre ++ e :: post ->
  (forall x, In x pre -> absorbed (crop_data_csv w x)) ->
  crop_data_csv w e = inl ex ->
  decode_or_missing (class_of ex) = false ->
  app grow month temp rain ph button w =
  (Stop, emit (St_error [Text (utf8 "数据加载失败：" ++ exn_str ex)])
           (after_reads (pre ++ [e]) (emit page_title w))).
Proof.
  intros Hc Henc Hpre He Hx.
  assert (Hl := load_data_raised (emit page_title w) pre e post Hc Henc Hpre He Hx).
  unfold app, bind, log, try_except. now rewrite Hl.
Qed.

(** *** C5: the order of the encodings and the first successful parse *)

(** C5, as stated, does not hold. On a file for which the UTF-8 attempt
    raises a parser error (a class outside the [except] clause), the GBK
    attempt would fail to decode and the UTF-16 attempt would parse, UTF-16
    is the first encoding that parses the file; yet [load_data] makes the
    UTF-8 attempt only, and the parser error leaves it: the table of the
    UTF-16 attempt is not returned, and the load fails although the file
    exists and one of the four encodings parses it. *)
Lemma C5_parser_error_hides_later_encoding :
  let w := fresh utf16_stray_quote None in
  crop_data_csv w (utf8 "utf-8") = inl parser_error /\
  crop_data_csv w (utf8 "gbk") = inl decode_error /\
  crop_data_csv w (utf8 "utf-16") = inr rice_raw /\
  fst (load_data w) = Raise parser_error /\
  fst (load_data w) <> Return (normalize_columns rice_raw) /\
  reads (trace (snd (load_data w))) = [utf8 "utf-8"].
Proof.
  repeat split; try reflexivity.
  vm_compute. discriminate.
Qed.

(** C5, amended: [load_data] calls [read_csv] with the encodings in the
    order UTF-8, GBK, UTF-16, UTF-8-with-signature (its attempts are a
    prefix of that list); it returns the normalized table of the first
    encoding that parses the file, provided every attempt before it raised
    a decode error or file-not-found; and it ends with the load-failure
    diagnostic exactly when all four attempts raised a decode error or
    file-not-found. *)
Theorem C5_load_data_first_parse (w : World) :
  cache_load_data w = None ->
  (exists tried left,
      encodings = tried ++ left /\
      reads (trace (snd (load_data w))) = reads (trace w) ++ tried) /\
  (forall pre e post df,
      encodings = pre ++ e :: post ->
      (forall x, In x pre -> absorbed (crop_data_csv w x)) ->
      crop_data_csv w e = inr df ->
      fst (load_data w) = Return (normalize_columns df) /\
      reads (trace (snd (load_data w))) = reads (trace w) ++ pre ++ [e]) /\
  (fst (load_data w) = Stop <->
   (forall x, In x encodings -> absorbed (crop_data_csv w x))) /\
  (fst (load_data w) = Stop ->
   trace (snd (load_data w)) =
   trace w ++ map Call_read_csv encodings ++ [St_error [Text load_failed_text]]).
Proof.
  intros Hc. split; [|split; [|split]].
  - now apply load_data_reads.
  - intros pre e post df Henc Hpre He.
    rewrite (load_data_parsed w pre e post Hc Henc Hpre He). split; auto.
    cbn [snd]. change (trace (fill_cache ?d ?v)) with (trace v).
    apply reads_after_reads.
  - now apply load_data_stop_iff.
  - intros H. pose proof (proj1 (load_data_stop_iff w Hc) H) as Hall.
    rewrite (load_data_exhausted w Hc Hall). cbn [snd].
    rewrite trace_emit, trace_after_reads. now rewrite <- app_assoc.
Qed.

(** A file in UTF-16: the third attempt is the one returned. *)
Lemma C5_load_data_first_parse_witness :
  cache_load_data (fresh utf16_file None) = None /\
  fst (load_data (fresh utf16_file None)) = Return (normalize_columns rice_raw) /\
  reads (trace (snd (load_data (fresh utf16_file None)))) =
  [utf8 "utf-8"; utf8 "gbk"; utf8 "utf-16"].
Proof.
  split; [reflexivity|].
  destruct (C5_load_data_first_parse (fresh utf16_file None) eq_refl)
    as (_ & H & _).
  apply (H [utf8 "utf-8"; utf8 "gbk"] (utf8 "utf-16") [utf8 "utf-8-sig"] rice_raw).
  - reflexivity.
  - intros x [<-|[<-|[]]]; reflexivity.
  - reflexivity.
Defined.

(** *** C6: normalized column labels *)

(** C6, as stated, does not hold: a parsed label that hides a tab between
    parentheses comes out with the tab at its end, so the returned label
    is not free of trailing whitespace. *)
Lemma C6_label_keeps_inner_tab :
  let w := fresh (readable tab_label) None in
  exists df c,
    fst (load_data w) = Return df /\
    In c (columns df) /\
    c = utf8 "a" ++ [9%N] /\
    strip c = utf8 "a" /\
    strip c <> c.
Proof.
  exists (normalize_columns tab_label), (utf8 "a" ++ [9%N]).
  repeat split; try reflexivity.
  - left. reflexivity.
  - vm_compute. discriminate.
Qed.

(** C6, amended: for every file the loader parses (under some encoding of
    its list), every column label of the returned table is the parsed
    label stripped of leading and trailing whitespace and then rid of every
    space and parenthesis character; it contains no space and no
    parenthesis; and whenever the parsed label, once stripped of its
    leading and trailing whitespace, has no whitespace character other
    than the space (whatever blanks, tabs or line ends surrounded it), the
    returned label holds no whitespace at all and so is free of leading
    and trailing whitespace. *)
Theorem C6_columns_normalized (w : World) (df : DataFrame) :
  cache_load_data w = None ->
  fst (load_data w) = Return df ->
  exists enc parsed,
    In enc encodings /\
    crop_data_csv w enc = inr parsed /\
    columns df = map normalize_label (columns parsed) /\
    (forall c, In c (columns df) ->
       ~ In space c /\ ~ In lparen c /\ ~ In rparen c) /\
    (forall raw, In raw (columns parsed) ->
       (forall x, In x (strip raw) -> isspace x = true -> x = space) ->
       (forall x, In x (normalize_label raw) -> isspace x = false) /\
       strip (normalize_label raw) = normalize_label raw).
Proof.
  intros Hc Hr. rewrite (load_data_cold w Hc) in Hr. unfold load_data_body in Hr.
  destruct (loop_inv encodings w)
    as [(pre & e & post & parsed & Henc & _ & He & Hl)
       |[(pre & e & post & ex & _ & _ & _ & _ & Hl)|(_ & Hl)]];
    rewrite Hl in Hr; try discriminate.
  injection Hr as <-.
  exists e, parsed.
  split; [rewrite Henc; apply in_or_app; right; now left|].
  split; [exact He|]. split; [reflexivity|]. split.
  - intros c H. simpl in H. apply in_map_iff in H as (raw & <- & _).
    apply normalize_label_clean.
  - intros raw _ Hraw.
    assert (Hno : forall x, In x (normalize_label raw) -> isspace x = false).
    { intros x Hx. destruct (isspace x) eqn:Hs; auto.
      rewrite (Hraw x (normalize_label_in_strip x raw Hx) Hs) in Hx.
      now apply normalize_label_clean in Hx. }
    split; [exact Hno|]. now apply strip_no_space.
Qed.

(** The sample table with padded labels, read at the first attempt: the
    label of the temperature, written with a blank before it, a blank
    inside, parentheses around the unit and a tab after it, comes out as
    温度℃. *)
Lemma C6_columns_normalized_witness :
  cache_load_data (fresh (readable rice_padded) None) = None /\
  fst (load_data (fresh (readable rice_padded) None)) =
    Return (normalize_columns rice_padded) /\
  In (utf8 " 温度 (℃)" ++ [9%N]) (columns rice_padded) /\
  (forall x, In x (strip (utf8 " 温度 (℃)" ++ [9%N])) ->
     isspace x = true -> x = space) /\
  normalize_label (utf8 " 温度 (℃)" ++ [9%N]) = utf8 "温度℃" /\
  strip (normalize_label (utf8 " 温度 (℃)" ++ [9%N])) =
    normalize_label (utf8 " 温度 (℃)" ++ [9%N]).
Proof.
  assert (Hin : In (utf8 " 温度 (℃)" ++ [9%N]) (columns rice_padded))
    by (right; left; reflexivity).
  assert (Hsp : forall x, In x (strip (utf8 " 温度 (℃)" ++ [9%N])) ->
                          isspace x = true -> x = space).
  { intros x Hx Hs. vm_compute in Hx.
    repeat (destruct Hx as [<-|Hx];
            [first [reflexivity | vm_compute in Hs; discriminate]|]).
    destruct Hx. }
  split; [reflexivity|]. split; [reflexivity|].
  split; [exact Hin|]. split; [exact Hsp|]. split; [reflexivity|].
  destruct (@C6_columns_normalized (fresh (readable rice_padded) None)
              (normalize_columns rice_padded) eq_refl eq_refl)
    as (enc & parsed & _ & Hp & _ & _ & H).
  injection Hp as <-.
  exact (proj2 (H (utf8 " 温度 (℃)" ++ [9%N]) Hin Hsp)).
Defined.

(** *** C9: the diagnostic after all encodings failed *)

(** C9, as stated, does not hold. On a file that none of the four
    encodings decodes the loader gives up after the four attempts with one
    fixed message, which names none of the encodings tried. And the
    attempts need not be exhausted: on a file in an unlisted encoding and
    without a byte-order mark the UTF-16 attempt raises a [UnicodeError],
    which the [except] clause does not list; the error leaves the loader
    at the third attempt, the fourth encoding is never tried, and the page
    ends on the caller's report of that error, not on the loader's
    diagnostic. *)
Lemma C9_diagnostic_names_no_encoding :
  (let w := fresh undecodable None in
   load_data w =
     (Stop, emit (St_error [Text load_failed_text]) (after_reads encodings w)) /\
   trace (snd (load_data w)) =
     map Call_read_csv encodings ++ [St_error [Text load_failed_text]] /\
   forallb (fun enc => negb (mentions enc [Text load_failed_text])) encodings
     = true) /\
  (let w := fresh bom_less_file None in
   (forall enc, In enc encodings -> exists ex, crop_data_csv w enc = inl ex) /\
   fst (load_data w) = Raise no_bom_error /\
   fst (load_data w) <> Stop /\
   reads (trace (snd (load_data w))) =
     [utf8 "utf-8"; utf8 "gbk"; utf8 "utf-16"] /\
   fst (app stump 5 25 800 (13 # 2) false w) = Stop /\
   trace (snd (app stump 5 25 800 (13 # 2) false w)) =
     [page_title;
      Call_read_csv (utf8 "utf-8"); Call_read_csv (utf8 "gbk");
      Call_read_csv (utf8 "utf-16");
      St_error
        [Text (utf8 "数据加载失败：UTF-16 stream does not start with BOM")]]).
Proof.
  split.
  - repeat split; vm_compute; reflexivity.
  - cbv zeta. split; [|split; [|split; [|split; [|split]]]].
    + intros enc _. unfold fresh, bom_less_file. cbn [crop_data_csv].
      destruct (str_eqb enc (utf8 "utf-16")); eexists; reflexivity.
    + vm_compute. reflexivity.
    + vm_compute. discriminate.
    + vm_compute. reflexivity.
    + vm_compute. reflexivity.
    + vm_compute. reflexivity.
Qed.

(** C9, amended: when no encoding of the list parses the file, the loader
    never returns a table, and it fails in one of two ways. If every
    attempt raised a decode error (or file-not-found), it fails only after
    calling [read_csv] with all four encodings, in order, and then shows
    one fixed diagnostic (check that the file exists, check its encoding)
    and stops; the diagnostic names none of the encodings tried. If some
    attempt raised an error of another class, the first such error leaves
    the loader at once, the remaining encodings are not tried, and the
    caller reports that error's text and stops. The fixed diagnostic is
    never reached before all four encodings were tried. *)
Theorem C9_load_error_after_all_encodings
    (grow : nat -> Z -> DataFrame -> DataFrame -> exn + Decision)
    (month temp rain : Z) (ph : Q) (button : bool) (w : World) :
  cache_load_data w = None ->
  (forall enc, In enc encodings -> exists ex, crop_data_csv w enc = inl ex) ->
  (forall df, fst (load_data w) <> Return df) /\
  ((forall enc, In enc encodings -> absorbed (crop_data_csv w enc)) ->
   fst (load_data w) = Stop /\
   trace (snd (load_data w)) =
     trace w ++ map Call_read_csv encodings ++ [St_error [Text load_failed_text]] /\
   app grow month temp rain ph button w =
     (Stop, emit (St_error [Text load_failed_text])
              (after_reads encodings (emit page_title w))) /\
   forall enc, In enc encodings -> mentions enc [Text load_failed_text] = false) /\
  (forall pre e post ex,
     encodings = pre ++ e :: post ->
     (forall x, In x pre -> absorbed (crop_data_csv w x)) ->
     crop_data_csv w e = inl ex ->
     decode_or_missing (class_of ex) = false ->
     fst (load_data w) = Raise ex /\
     trace (snd (load_data w)) = trace w ++ map Call_read_csv (pre ++ [e]) /\
     app grow month temp rain ph button w =
       (Stop, emit (St_error [Text (utf8 "数据加载失败：" ++ exn_str ex)])
                (after_reads (pre ++ [e]) (emit page_title w)))) /\
  ((forall enc, In enc encodings -> absorbed (crop_data_csv w enc)) \/
   exists pre e post ex,
     encodings = pre ++ e :: post /\
     (forall x, In x pre -> absorbed (crop_data_csv w x)) /\
     crop_data_csv w e = inl ex /\
     decode_or_missing (class_of ex) = false) /\
  (fst (load_data w) = Stop ->
   reads (trace (snd (load_data w))) = reads (trace w) ++ encodings).
Proof.
  intros Hc Hno.
  assert (Hcases :
    (forall enc, In enc encodings -> absorbed (crop_data_csv w enc)) \/
    exists pre e post ex,
      encodings = pre ++ e :: post /\
      (forall x, In x pre -> absorbed (crop_data_csv w x)) /\
      crop_data_csv w e = inl ex /\
      decode_or_missing (class_of ex) = false).
  { destruct (loop_inv encodings w)
      as [(pre & e & post & parsed & Henc & _ & He & _)
         |[(pre & e & post & ex & Henc & Hpre & He & Hx & _)|(Hall & _)]].
    - destruct (Hno e) as [ex Hex].
      + rewrite Henc. apply in_or_app. right. now left.
      + rewrite Hex in He. discriminate.
    - right. exists pre, e, post, ex. auto.
    - now left. }
  split; [|split; [|split; [|split]]].
  - intros df Hr.
    destruct Hcases as [Hall|(pre & e & post & ex & Henc & Hpre & He & Hx)].
    + rewrite (load_data_exhausted w Hc Hall) in Hr. discriminate.
    + rewrite (load_data_raised w pre e post Hc Henc Hpre He Hx) in Hr.
      discriminate.
  - intros Hall.
    rewrite (load_data_exhausted w Hc Hall). cbn [fst snd].
    split; [reflexivity|]. split; [|split].
    + rewrite trace_emit, trace_after_reads. now rewrite <- app_assoc.
    + now apply app_load_stopped.
    + intros enc Henc.
      repeat (destruct Henc as [<-|Henc]; [vm_compute; reflexivity|]).
      destruct Henc.
  - intros pre e post ex Henc Hpre He Hx.
    rewrite (load_data_raised w pre e post Hc Henc Hpre He Hx). cbn [fst snd].
    split; [reflexivity|]. split.
    + apply trace_after_reads.
    + exact (@app_load_raised grow month temp rain ph button w pre e post ex
               Hc Henc Hpre He Hx).
  - exact Hcases.
  - intros H. pose proof (proj1 (load_data_stop_iff w Hc) H) as Hall.
    rewrite (load_data_exhausted w Hc Hall). cbn [snd].
    rewrite trace_emit, reads_app, reads_after_reads. simpl.
    now rewrite app_nil_r.
Qed.

(** The file without a byte-order mark: two decode errors are absorbed,
    the third attempt raises, and the caller reports it. *)
Lemma C9_load_error_after_all_encodings_witness :
  cache_load_data (fresh bom_less_file None) = None /\
  (forall enc, In enc encodings ->
     exists ex, crop_data_csv (fresh bom_less_file None) enc = inl ex) /\
  fst (load_data (fresh bom_less_file None)) = Raise no_bom_error /\
  app stump 5 25 800 (13 # 2) false (fresh bom_less_file None) =
    (Stop,
     emit (St_error [Text (utf8 "数据加载失败：" ++ exn_str no_bom_error)])
       (after_reads ([utf8 "utf-8"; utf8 "gbk"] ++ [utf8 "utf-16"])
          (emit page_title (fresh bom_less_file None)))).
Proof.
  assert (Hno : forall enc, In enc encodings ->
     exists ex, crop_data_csv (fresh bom_less_file None) enc = inl ex).
  { intros enc _. unfold fresh, bom_less_file. cbn [crop_data_csv].
    destruct (str_eqb enc (utf8 "utf-16")); eexists; reflexivity. }
  split; [reflexivity|]. split; [exact Hno|].
  destruct (@C9_load_error_after_all_encodings stump 5 25 800 (13 # 2) false
              (fresh bom_less_file None) eq_refl Hno)
    as (_ & _ & H & _).
  destruct (H [utf8 "utf-8"; utf8 "gbk"] (utf8 "utf-16") [utf8 "utf-8-sig"]
              no_bom_error eq_refl) as (H1 & _ & H3).
  - intros x [<-|[<-|[]]]; vm_compute; reflexivity.
  - vm_compute. reflexivity.
  - vm_compute. reflexivity.
  - split; [exact H1|exact H3].
Defined.

(** *** C10: a missing file, and errors outside the [except] clause *)

(** C10: inside the loop a file-not-found error is absorbed like a decode
    error and the next encoding is tried; a missing file therefore uses up
    the four attempts and ends in the very diagnostic, shown once, of a
    file that no encoding decodes (the caller adds no report of its own);
    whereas an error of any other class leaves the loop at once, the
    remaining encodings not being tried, and it is the caller that reports
    it and stops. *)
Theorem C10_missing_file_like_decode_failure (w : World) :
  cache_load_data w = None ->
  (forall pre e next post msg,
      encodings = pre ++ e :: next :: post ->
      (forall x, In x pre -> absorbed (crop_data_csv w x)) ->
      crop_data_csv w e = inl (Exn FileNotFoundError msg) ->
      exists more,
        reads (trace (snd (load_data w))) =
        reads (trace w) ++ pre ++ e :: next :: more) /\
  ((forall enc, In enc encodings ->
      exists msg, crop_data_csv w enc = inl (Exn FileNotFoundError msg)) ->
   load_data w =
     (Stop, emit (St_error [Text load_failed_text]) (after_reads encodings w)) /\
   forall w2,
     cache_load_data w2 = None ->
     (forall enc, In enc encodings ->
        exists msg, crop_data_csv w2 enc = inl (Exn UnicodeDecodeError msg)) ->
     fst (load_data w2) = fst (load_data w) /\
     exists shown,
       shown = map Call_read_csv encodings ++ [St_error [Text load_failed_text]] /\
       trace (snd (load_data w)) = trace w ++ shown /\
       trace (snd (load_data w2)) = trace w2 ++ shown) /\
  (forall pre e post ex,
      encodings = pre ++ e :: post ->
      (forall x, In x pre -> absorbed (crop_data_csv w x)) ->
      crop_data_csv w e = inl ex ->
      decode_or_missing (class_of ex) = false ->
      load_data w = (Raise ex, after_reads (pre ++ [e]) w) /\
      reads (trace (snd (load_data w))) = reads (trace w) ++ pre ++ [e] /\
      forall grow month temp rain ph button,
        app grow month temp rain ph button w =
        (Stop, emit (St_error [Text (utf8 "数据加载失败：" ++ exn_str ex)])
                 (after_reads (pre ++ [e]) (emit page_title w)))) /\
  ((forall enc, In enc encodings ->
      exists msg, crop_data_csv w enc = inl (Exn FileNotFoundError msg)) ->
   forall grow month temp rain ph button,
     app grow month temp rain ph button w =
     (Stop, emit (St_error [Text load_failed_text])
              (after_reads encodings (emit page_title w)))).
Proof.
  intros Hc. split; [|split; [|split]].
  - intros pre e next post msg Henc Hpre He.
    assert (Hpre' : forall x, In x (pre ++ [e]) -> absorbed (crop_data_csv w x)).
    { intros x Hx. apply in_app_or in Hx as [Hx|[<-|[]]]; auto.
      rewrite He. reflexivity. }
    rewrite (load_data_cold w Hc). unfold load_data_body.
    replace encodings with ((pre ++ [e]) ++ next :: post)
      by (now rewrite Henc, <- app_assoc).
    rewrite (loop_absorbed (pre ++ [e]) (next :: post) w Hpre').
    set (w1 := after_reads (pre ++ [e]) w).
    assert (Hw1 : reads (trace w1) = reads (trace w) ++ pre ++ [e])
      by apply reads_after_reads.
    destruct (loop_inv (next :: post) w1)
      as [(p & x & q & df & Hl & _ & _ & Hr)
         |[(p & x & q & ex & Hl & _ & _ & _ & Hr)|(_ & Hr)]];
      rewrite Hr; cbn [snd].
    + change (trace (fill_cache ?d ?v)) with (trace v).
      rewrite reads_after_reads, Hw1.
      destruct p as [|y p]; injection Hl as <- Hl.
      * exists []. now rewrite <- !app_assoc.
      * exists (p ++ [x]). now rewrite <- !app_assoc.
    + rewrite reads_after_reads, Hw1.
      destruct p as [|y p]; injection Hl as <- Hl.
      * exists []. now rewrite <- !app_assoc.
      * exists (p ++ [x]). now rewrite <- !app_assoc.
    + rewrite trace_emit, reads_app, reads_after_reads, Hw1. simpl.
      exists post. now rewrite app_nil_r, <- !app_assoc.
  - intros H.
    assert (Hall : forall x, In x encodings -> absorbed (crop_data_csv w x)).
    { intros x Hx. destruct (H x Hx) as [msg ->]. reflexivity. }
    split; [now apply load_data_exhausted|].
    intros w2 Hc2 H2.
    assert (Hall2 : forall x, In x encodings -> absorbed (crop_data_csv w2 x)).
    { intros x Hx. destruct (H2 x Hx) as [msg ->]. reflexivity. }
    rewrite (load_data_exhausted w Hc Hall), (load_data_exhausted w2 Hc2 Hall2).
    split; [reflexivity|]. eexists. split; [reflexivity|]. cbn [snd].
    rewrite !trace_emit, !trace_after_reads. now rewrite <- !app_assoc.
  - intros pre e post ex Henc Hpre He Hx.
    rewrite (load_data_raised w pre e post Hc Henc Hpre He Hx).
    split; [reflexivity|]. split.
    + cbn [snd]. apply reads_after_reads.
    + intros grow month temp rain ph button.
      now apply (app_load_raised grow month temp rain ph button w pre e post).
  - intros H grow month temp rain ph button.
    apply app_load_stopped; auto.
    intros x Hx. destruct (H x Hx) as [msg ->]. reflexivity.
Qed.

(** No file at all: four attempts, then the diagnostic, as for an
    undecodable file. *)
Lemma C10_missing_file_like_decode_failure_witness :
  cache_load_data (fresh absent None) = None /\
  (forall enc, In enc encodings ->
     exists msg, crop_data_csv (fresh absent None) enc
                 = inl (Exn FileNotFoundError msg)) /\
  load_data (fresh absent None) =
    (Stop, emit (St_error [Text load_failed_text])
             (after_reads encodings (fresh absent None))) /\
  fst (load_data (fresh undecodable None)) = fst (load_data (fresh absent None)).
Proof.
  assert (Ha : forall enc, In enc encodings ->
     exists msg, crop_data_csv (fresh absent None) enc
                 = inl (Exn FileNotFoundError msg)).
  { intros enc _. eexists. reflexivity. }
  destruct (C10_missing_file_like_decode_failure (fresh absent None) eq_refl)
    as (_ & H & _).
  destruct (H Ha) as [H1 H2].
  split; [reflexivity|]. split; [exact Ha|]. split; [exact H1|].
  apply (H2 (fresh undecodable None) eq_refl).
  intros enc _. eexists. reflexivity.
Defined.

(** ** The column resolver *)

Lemma in_columns_iff (name : str) (cols : list str) :
  in_columns name cols = true <-> In name cols.
Proof.
  unfold in_columns. rewrite existsb_exists. split.
  - intros (x & Hx & He). apply str_eqb_eq in He. now subst.
  - intros H. exists name. split; auto. apply str_eqb_refl.
Qed.

(** The inner loop breaks on the first accepted name that labels a column:
    every name before it labels none. *)
Lemma first_present_found (names cols : list str) (name : str) :
  first_present names cols = Some name ->
  exists pre post,
    names = pre ++ name :: post /\
    In name cols /\
    (forall x, In x pre -> ~ In x cols).
Proof.
  induction names as [|n names IH]; simpl; [discriminate|].
  destruct (in_columns n cols) eqn:E.
  - intros [= <-]. exists [], names. repeat split; auto.
    now apply in_columns_iff.
  - intros H. destruct (IH H) as (pre & post & -> & Hin & Hpre).
    exists (n :: pre), post. repeat split; auto.
    intros x [<-|Hx]; auto.
    rewrite <- in_columns_iff, E. discriminate.
Qed.

Lemma first_present_none (names cols : list str) :
  first_present names cols = None <->
  (forall x, In x names -> ~ In x cols).
Proof.
  induction names as [|n names IH]; simpl.
  - split; [intros _ x []|reflexivity].
  - destruct (in_columns n cols) eqn:E.
    + split; [discriminate|]. intros H. exfalso.
      apply (H n); auto. now apply in_columns_iff.
    + rewrite IH. split.
      * intros H x [<-|Hx]; auto. rewrite <- in_columns_iff, E. discriminate.
      * intros H x Hx. apply H. now right.
Qed.

Lemma first_present_some (names cols : list str) (x : str) :
  In x names -> In x cols -> exists name, first_present names cols = Some name.
Proof.
  intros Hn Hc. destruct (first_present names cols) as [name|] eqn:E.
  - now exists name.
  - exfalso. apply (proj1 (first_present_none names cols) E x); auto.
Qed.

(** The outer loop stops at the first kind of column that has no accepted
    name among the labels; the kinds after it are not looked at. *)
Lemma select_columns_stops (pre : list (str * list str)) (kind : str)
    (names : list str) (post : list (str * list str)) (cols : list str)
    (selected : dict) (w : World) :
  (forall k a, In (k, a) pre -> first_present a cols <> None) ->
  first_present names cols = None ->
  select_columns (pre ++ (kind, names) :: post) cols selected w =
  (Stop, emit (St_error [Text no_match_text; FmtList names]) w).
Proof.
  revert selected. induction pre as [|[k a] pre IH]; intros selected Hpre Hn.
  - simpl. now rewrite Hn.
  - simpl. destruct (first_present a cols) as [n|] eqn:E.
    + apply IH; auto. intros k' a' H. apply (Hpre k' a'). now right.
    + exfalso. apply (Hpre k a); auto. now left.
Qed.

(** When every kind has a name among the labels, the dictionary binds each
    kind to the name its inner loop broke on. *)
Lemma select_columns_resolved (cols : list str) (n1 n2 n3 n4 n5 : str)
    (w : World) :
  first_present month_names cols = Some n1 ->
  first_present temp_names cols = Some n2 ->
  first_present rain_names cols = Some n3 ->
  first_present ph_names cols = Some n4 ->
  first_present crop_names cols = Some n5 ->
  select_columns col_mapping cols [] w =
  (Return [(utf8 "month", n1); (utf8 "temp", n2); (utf8 "rain", n3);
           (utf8 "ph", n4); (utf8 "crop", n5)], w).
Proof.
  intros H1 H2 H3 H4 H5. unfold col_mapping.
  cbn [select_columns]. rewrite H1, H2, H3, H4, H5. reflexivity.
Qed.

Lemma positions_found (name : str) (cols : list str) (i : nat) :
  In name cols -> positions name cols i <> [].
Proof.
  revert i. induction cols as [|c cols IH]; intros i; simpl; [intros []|].
  intros [->|H].
  - rewrite str_eqb_refl. discriminate.
  - destruct (str_eqb c name); [discriminate|]. simpl. now apply IH.
Qed.

Lemma locate_found (names cols : list str) :
  (forall n, In n names -> In n cols) ->
  exists ps, locate names cols = inr ps.
Proof.
  induction names as [|n names IH]; intros H; simpl.
  - now exists [].
  - destruct (positions n cols 0) as [|p ps] eqn:E.
    + exfalso. apply (positions_found n cols 0); auto. apply H. now left.
    + destruct IH as [qs ->]; [intros x Hx; apply H; now right|].
      now exists ((p :: ps) ++ qs).
Qed.

Lemma getitem_list_found (df : DataFrame) (names : list str) :
  (forall n, In n names -> In n (columns df)) ->
  exists X, getitem_list df names = inr X.
Proof.
  intros H. unfold getitem_list.
  destruct (locate_found names (columns df) H) as [ps ->]. eauto.
Qed.

(** ** The trainer *)

Section TrainerFacts.

Variable grow : nat -> Z -> DataFrame -> DataFrame -> exn + Decision.

(** A kind of column without any accepted name among the labels halts the
    trainer before anything is fitted or written. *)
Lemma train_model_halts (df : DataFrame) (pre : list (str * list str))
    (kind : str) (names : list str) (post : list (str * list str)) (w : World) :
  col_mapping = pre ++ (kind, names) :: post ->
  (forall k a, In (k, a) pre -> first_present a (columns df) <> None) ->
  first_present names (columns df) = None ->
  train_model grow df w =
  (Stop, emit (St_error [Text no_match_text; FmtList names])
           (emit Call_train_model w)).
Proof.
  intros Hm Hpre Hn. unfold train_model.
  unfold bind at 1. cbn [log]. unfold bind at 1.
  rewrite Hm.
  rewrite (select_columns_stops pre kind names post (columns df) []
             (emit Call_train_model w) Hpre Hn).
  reflexivity.
Qed.

(** With every kind resolved, the trainer fits on the four feature
    columns and the crop column, and writes the model it returns. *)
Lemma train_model_resolved (df : DataFrame) (n1 n2 n3 n4 n5 : str) :
  first_present month_names (columns df) = Some n1 ->
  first_present temp_names (columns df) = Some n2 ->
  first_present rain_names (columns df) = Some n3 ->
  first_present ph_names (columns df) = Some n4 ->
  first_present crop_names (columns df) = Some n5 ->
  exists X y,
    getitem_list df [n1; n2; n3; n4] = inr X /\
    getitem df n5 = inr y /\
    forall w,
      train_model grow df w =
      let w1 := emit (Call_fit tree_estimator X y) (emit Call_train_model w) in
      match grow 3%nat 42%Z X y with
      | inl e => (Raise e, w1)
      | inr t =>
          let m := {| feature_names_in_ := columns X; decide := t |} in
          (Return m, emit (Call_dump m) (write_model_pkl (Pickled m) w1))
      end.
Proof.
  intros H1 H2 H3 H4 H5.
  destruct (first_present_found _ _ H1) as (_ & _ & _ & I1 & _).
  destruct (first_present_found _ _ H2) as (_ & _ & _ & I2 & _).
  destruct (first_present_found _ _ H3) as (_ & _ & _ & I3 & _).
  destruct (first_present_found _ _ H4) as (_ & _ & _ & I4 & _).
  destruct (first_present_found _ _ H5) as (_ & _ & _ & I5 & _).
  destruct (getitem_list_found df [n1; n2; n3; n4]) as [X HX].
  { intros n [<-|[<-|[<-|[<-|[]]]]]; auto. }
  destruct (getitem_list_found df [n5]) as [y Hy].
  { intros n [<-|[]]; auto. }
  exists X, y. repeat split; auto.
  intros w. unfold train_model.
  unfold bind at 1. cbn [log]. unfold bind at 1.
  rewrite (select_columns_resolved (columns df) (emit Call_train_model w)
             H1 H2 H3 H4 H5).
  unfold bind, lift, dict_item. cbn [dict_get str_eqb utf8 utf8_go].
  cbn. unfold getitem. rewrite HX, Hy. unfold fit, joblib_dump. cbn.
  destruct (grow 3 42 X y); reflexivity.
Qed.

End TrainerFacts.

Section TrainerCases.

Variable grow : nat -> Z -> DataFrame -> DataFrame -> exn + Decision.

(** The two ways the trainer goes, whatever the world it starts from:
    halted on an unresolved kind, or fitted on the resolved columns. *)
Lemma train_model_cases (df : DataFrame) :
  (exists names,
      forall w,
        train_model grow df w =
        (Stop, emit (St_error [Text no_match_text; FmtList names])
                 (emit Call_train_model w))) \/
  (exists X y,
      forall w,
        train_model grow df w =
        let w1 := emit (Call_fit tree_estimator X y) (emit Call_train_model w) in
        match grow 3%nat 42%Z X y with
        | inl e => (Raise e, w1)
        | inr t =>
            let m := {| feature_names_in_ := columns X; decide := t |} in
            (Return m, emit (Call_dump m) (write_model_pkl (Pickled m) w1))
        end).
Proof.
  destruct (first_present month_names (columns df)) as [n1|] eqn:E1;
    [|left; exists month_names; intros w;
      apply (train_model_halts grow df [] (utf8 "month") month_names
               (tl col_mapping)); auto; intros k a []].
  destruct (first_present temp_names (columns df)) as [n2|] eqn:E2;
    [|left; exists temp_names; intros w;
      apply (train_model_halts grow df (firstn 1 col_mapping) (utf8 "temp")
               temp_names (skipn 2 col_mapping)); auto;
      intros k a [[= <- <-]|[]]; congruence].
  destruct (first_present rain_names (columns df)) as [n3|] eqn:E3;
    [|left; exists rain_names; intros w;
      apply (train_model_halts grow df (firstn 2 col_mapping) (utf8 "rain")
               rain_names (skipn 3 col_mapping)); auto;
      intros k a [[= <- <-]|[[= <- <-]|[]]]; congruence].
  destruct (first_present ph_names (columns df)) as [n4|] eqn:E4;
    [|left; exists ph_names; intros w;
      apply (train_model_halts grow df (firstn 3 col_mapping) (utf8 "ph")
               ph_names (skipn 4 col_mapping)); auto;
      intros k a [[= <- <-]|[[= <- <-]|[[= <- <-]|[]]]]; congruence].
  destruct (first_present crop_names (columns df)) as [n5|] eqn:E5;
    [|left; exists crop_names; intros w;
      apply (train_model_halts grow df (firstn 4 col_mapping) (utf8 "crop")
               crop_names (skipn 5 col_mapping)); auto;
      intros k a [[= <- <-]|[[= <- <-]|[[= <- <-]|[[= <- <-]|[]]]]];
      congruence].
  right.
  destruct (train_model_resolved grow df E1 E2 E3 E4 E5) as (X & y & _ & _ & H).
  now exists X, y.
Qed.

(** A model the trainer returns is the one it has just written. *)
Lemma train_model_returns (df : DataFrame) (w w' : World) (m : Model) :
  train_model grow df w = (Return m, w') ->
  model_pkl w' = Some (Pickled m) /\
  exists X y,
    trace w' =
    trace w ++ [Call_train_model; Call_fit tree_estimator X y; Call_dump m].
Proof.
  destruct (train_model_cases df) as [(names & H)|(X & y & H)]; rewrite H.
  - discriminate.
  - cbv zeta. destruct (grow 3 42 X y) as [e|t]; [discriminate|].
    intros [= <- <-]. split; [reflexivity|].
    exists X, y. rewrite !trace_emit.
    change (trace (write_model_pkl ?p ?v)) with (trace v).
    rewrite !trace_emit. now rewrite <- !app_assoc.
Qed.

End TrainerCases.

(** *** C2: the first accepted name wins; an unresolved kind halts *)

(** C2: for every table, each kind of column (month, temperature, rainfall,
    pH, crop) is bound to the first name of its ordered list that labels a
    column, so that of two accepted names both present the earlier one is
    taken; the resolution succeeds whenever every kind has such a name; and
    the first kind that has none halts the trainer with the missing-column
    message listing the names tried, before anything is fitted or written:
    [model.pkl] is left as it was. *)
Theorem C2_first_alias_wins_and_fail_fast
    (grow : nat -> Z -> DataFrame -> DataFrame -> exn + Decision)
    (df : DataFrame) (w : World) :
  (forall selected w',
      select_columns col_mapping (columns df) [] w = (Return selected, w') ->
      forall kind names,
        In (kind, names) col_mapping ->
        exists pre name post,
          names = pre ++ name :: post /\
          dict_get kind selected = Some name /\
          In name (columns df) /\
          (forall x, In x pre -> ~ In x (columns df))) /\
  ((forall kind names,
       In (kind, names) col_mapping ->
       exists x, In x names /\ In x (columns df)) ->
   exists selected,
     select_columns col_mapping (columns df) [] w = (Return selected, w)) /\
  (forall pre kind names post,
      col_mapping = pre ++ (kind, names) :: post ->
      (forall k a, In (k, a) pre -> exists x, In x a /\ In x (columns df)) ->
      (forall x, In x names -> ~ In x (columns df)) ->
      fst (train_model grow df w) = Stop /\
      model_pkl (snd (train_model grow df w)) = model_pkl w /\
      trace (snd (train_model grow df w)) =
      trace w ++ [Call_train_model;
                  St_error [Text no_match_text; FmtList names]]).
Proof.
  split; [|split].
  - intros selected w' Hsel kind names Hin.
    destruct (first_present month_names (columns df)) as [n1|] eqn:E1;
      [|unfold col_mapping in Hsel; cbn [select_columns] in Hsel;
        rewrite E1 in Hsel; discriminate].
    destruct (first_present temp_names (columns df)) as [n2|] eqn:E2;
      [|unfold col_mapping in Hsel; cbn [select_columns] in Hsel;
        rewrite E1, E2 in Hsel; discriminate].
    destruct (first_present rain_names (columns df)) as [n3|] eqn:E3;
      [|unfold col_mapping in Hsel; cbn [select_columns] in Hsel;
        rewrite E1, E2, E3 in Hsel; discriminate].
    destruct (first_present ph_names (columns df)) as [n4|] eqn:E4;
      [|unfold col_mapping in Hsel; cbn [select_columns] in Hsel;
        rewrite E1, E2, E3, E4 in Hsel; discriminate].
    destruct (first_present crop_names (columns df)) as [n5|] eqn:E5;
      [|unfold col_mapping in Hsel; cbn [select_columns] in Hsel;
        rewrite E1, E2, E3, E4, E5 in Hsel; discriminate].
    rewrite (select_columns_resolved (columns df) w E1 E2 E3 E4 E5) in Hsel.
    injection Hsel as <- _.
    destruct Hin as [[= <- <-]|[[= <- <-]|[[= <- <-]|[[= <- <-]|[[= <- <-]|[]]]]]].
    + destruct (first_present_found _ _ E1) as (pre & post & ? & ? & ?).
      exists pre, n1, post. auto.
    + destruct (first_present_found _ _ E2) as (pre & post & ? & ? & ?).
      exists pre, n2, post. auto.
    + destruct (first_present_found _ _ E3) as (pre & post & ? & ? & ?).
      exists pre, n3, post. auto.
    + destruct (first_present_found _ _ E4) as (pre & post & ? & ? & ?).
      exists pre, n4, post. auto.
    + destruct (first_present_found _ _ E5) as (pre & post & ? & ? & ?).
      exists pre, n5, post. auto.
  - intros H.
    assert (Hk : forall kind names, In (kind, names) col_mapping ->
              exists n, first_present names (columns df) = Some n).
    { intros kind names Hin. destruct (H kind names Hin) as (x & Hx & Hc).
      now apply (first_present_some names (columns df) x). }
    destruct (Hk (utf8 "month") month_names) as [n1 E1]; [simpl; auto|].
    destruct (Hk (utf8 "temp") temp_names) as [n2 E2]; [simpl; auto|].
    destruct (Hk (utf8 "rain") rain_names) as [n3 E3]; [simpl; auto|].
    destruct (Hk (utf8 "ph") ph_names) as [n4 E4]; [simpl; auto|].
    destruct (Hk (utf8 "crop") crop_names) as [n5 E5]; [simpl; auto 6|].
    eexists. apply (select_columns_resolved (columns df) w E1 E2 E3 E4 E5).
  - intros pre kind names post Hm Hpre Hn.
    rewrite (train_model_halts grow df pre kind names post w Hm).
    + repeat split. cbn [snd]. rewrite !trace_emit. now rewrite <- app_assoc.
    + intros k a Hin E. destruct (Hpre k a Hin) as (x & Hx & Hc).
      apply (proj1 (first_present_none a (columns df)) E x); auto.
    + now apply first_present_none.
Qed.

(** A table without a pH column: the first three kinds resolve, the fourth
    halts the trainer. *)
Lemma C2_first_alias_wins_and_fail_fast_witness :
  fst (train_model stump no_ph (fresh (readable no_ph) None)) = Stop /\
  model_pkl (snd (train_model stump no_ph (fresh (readable no_ph) None))) = None /\
  trace (snd (train_model stump no_ph (fresh (readable no_ph) None))) =
  [Call_train_model; St_error [Text no_match_text; FmtList ph_names]].
Proof.
  destruct (C2_first_alias_wins_and_fail_fast stump no_ph
              (fresh (readable no_ph) None)) as (_ & _ & H).
  apply (H (firstn 3 col_mapping) (utf8 "ph") ph_names (skipn 4 col_mapping)).
  - reflexivity.
  - intros k a [[= <- <-]|[[= <- <-]|[[= <- <-]|[]]]].
    + exists (utf8 "种植月"). split; simpl; auto.
    + exists (utf8 "温度℃"). split; simpl; auto.
    + exists (utf8 "降雨mm"). split; simpl; auto.
  - intros x Hx Hc. apply in_columns_iff in Hc.
    destruct Hx as [<-|[<-|[<-|[]]]]; vm_compute in Hc; discriminate.
Defined.

(** *** C3: two runs of the trainer *)

(** C3: two runs of the trainer on the same table, from any two worlds
    (whatever the state of the global random generator and whether or not
    a model file already exists), end alike: both halt, both raise the same
    error, or both return the same model, which then predicts identically
    on every input; every fit asks for depth 3 and the fixed seed 42. *)
Theorem C3_training_is_deterministic
    (grow : nat -> Z -> DataFrame -> DataFrame -> exn + Decision)
    (df : DataFrame) (w1 w2 : World) :
  fst (train_model grow df w1) = fst (train_model grow df w2) /\
  (forall m1 m2,
      fst (train_model grow df w1) = Return m1 ->
      fst (train_model grow df w2) = Return m2 ->
      forall X, predict m1 X = predict m2 X) /\
  (exists added,
      trace (snd (train_model grow df w1)) = trace w1 ++ added /\
      trace (snd (train_model grow df w2)) = trace w2 ++ added /\
      forall est X y,
        In (Call_fit est X y) added ->
        max_depth est = 3%nat /\ random_state est = Some 42%Z).
Proof.
  destruct (train_model_cases grow df) as [(names & H)|(X & y & H)];
    rewrite !H.
  - split; [reflexivity|]. split; [discriminate|].
    exists [Call_train_model; St_error [Text no_match_text; FmtList names]].
    cbn [snd]. rewrite !trace_emit, <- !app_assoc. repeat split.
    + destruct H0 as [H0|[H0|[]]]; discriminate.
    + destruct H0 as [H0|[H0|[]]]; discriminate.
  - cbv zeta. destruct (grow 3%nat 42%Z X y) as [e|t]; cbn [fst snd].
    + split; [reflexivity|]. split; [discriminate|].
      exists [Call_train_model; Call_fit tree_estimator X y].
      rewrite !trace_emit, <- !app_assoc. repeat split.
      * destruct H0 as [H0|[H0|[]]]; [discriminate|]. now injection H0 as <- _ _.
      * destruct H0 as [H0|[H0|[]]]; [discriminate|]. now injection H0 as <- _ _.
    + split; [reflexivity|]. split; [now intros m1 m2 [= <-] [= <-]|].
      exists [Call_train_model; Call_fit tree_estimator X y;
              Call_dump {| feature_names_in_ := columns X; decide := t |}].
      rewrite !trace_emit.
      change (trace (write_model_pkl ?p ?v)) with (trace v).
      rewrite !trace_emit, <- !app_assoc. repeat split.
      * destruct H0 as [H0|[H0|[H0|[]]]]; try discriminate.
        now injection H0 as <- _ _.
      * destruct H0 as [H0|[H0|[H0|[]]]]; try discriminate.
        now injection H0 as <- _ _.
Qed.

Lemma C3_training_is_deterministic_witness :
  exists m,
    fst (train_model stump (normalize_columns rice_raw)
           (fresh (readable rice_raw) None)) = Return m /\
    fst (train_model stump (normalize_columns rice_raw) lived_in) = Return m /\
    predict m (input_data 5 25 800 (13 # 2)) = inr [VStr (utf8 "Rice")].
Proof.
  destruct (C3_training_is_deterministic stump (normalize_columns rice_raw)
              (fresh (readable rice_raw) None) lived_in) as (H & Hp & _).
  exists (constant_model (VStr (utf8 "Rice"))).
  assert (H1 : fst (train_model stump (normalize_columns rice_raw)
                      (fresh (readable rice_raw) None))
               = Return (constant_model (VStr (utf8 "Rice")))) by reflexivity.
  assert (H2 : fst (train_model stump (normalize_columns rice_raw) lived_in)
               = Return (constant_model (VStr (utf8 "Rice"))))
    by (rewrite <- H; exact H1).
  split; [exact H1|]. split; [exact H2|].
  exact (eq_trans (Hp _ _ H1 H2 (input_data 5 25 800 (13 # 2))) eq_refl).
Defined.

(** ** Computations that only write on the page *)

Lemma quiet_ret {A} (a : A) : quiet (ret a).
Proof. intros w. split; auto. exists []. now rewrite app_nil_r. Qed.

Lemma quiet_lift {A} (r : result A) : quiet (lift r).
Proof.
  intros w. unfold lift. destruct r; split; auto; exists [];
    now rewrite app_nil_r.
Qed.

Lemma quiet_log (ev : event) : is_page ev = true -> quiet (log ev).
Proof.
  intros H w. split; auto. exists [ev]. split; auto.
  simpl. now rewrite H.
Qed.

Lemma quiet_bind {A B} (c : M A) (k : A -> M B) :
  quiet c -> (forall a, quiet (k a)) -> quiet (bind c k).
Proof.
  intros Hc Hk w. unfold bind.
  destruct (Hc w) as (Hp & evs & Ht & Hq).
  destruct (c w) as [[a|e|] w1]; cbn [snd] in *.
  - destruct (Hk a w1) as (Hp' & evs' & Ht' & Hq').
    split; [congruence|]. exists (evs ++ evs'). split.
    + now rewrite Ht', Ht, app_assoc.
    + rewrite forallb_app, Hq, Hq'. reflexivity.
  - split; auto. now exists evs.
  - split; auto. now exists evs.
Qed.

Lemma quiet_try_except {A} (body : M A) (classes : exn_class -> bool)
    (handler : exn -> M A) :
  quiet body -> (forall e, quiet (handler e)) ->
  quiet (try_except body classes handler).
Proof.
  intros Hb Hh w. unfold try_except.
  destruct (Hb w) as (Hp & evs & Ht & Hq).
  destruct (body w) as [[a|e|] w1]; cbn [snd] in *.
  - split; auto. now exists evs.
  - destruct (classes (class_of e)); cbn [snd].
    + destruct (Hh e w1) as (Hp' & evs' & Ht' & Hq').
      split; [congruence|]. exists (evs ++ evs'). split.
      * now rewrite Ht', Ht, app_assoc.
      * rewrite forallb_app, Hq, Hq'. reflexivity.
    + split; auto. now exists evs.
  - split; auto. now exists evs.
Qed.

Lemma show_recommendation_quiet (model : Model) (df : DataFrame)
    (month temp rain : Z) (ph : Q) :
  quiet (show_recommendation model df month temp rain ph).
Proof.
  unfold show_recommendation.
  apply quiet_try_except.
  - repeat (apply quiet_bind; [first [apply quiet_lift|now apply quiet_log]|intros]).
    now apply quiet_log.
  - intros e. now apply quiet_log.
Qed.

(** One step through the second [try]: case analysis on the next call
    that may raise. *)
Ltac step_lookup :=
  cbn -[predict item_0 column_equals iloc_0 series_item utf8 indent];
  match goal with
  | |- context [predict ?a ?b] => destruct (predict a b)
  | |- context [item_0 ?a] => destruct (item_0 a)
  | |- context [column_equals ?a ?b ?c] => destruct (column_equals a b c)
  | |- context [iloc_0 ?a] => destruct (iloc_0 a)
  | |- context [series_item ?a ?b] => destruct (series_item a b)
  end.

(** The handler of the second [try] absorbs every exception: a request
    that has its model always returns. *)
Lemma show_recommendation_returns (model : Model) (df : DataFrame)
    (month temp rain : Z) (ph : Q) (w : World) :
  fst (show_recommendation model df month temp rain ph w) = Return tt.
Proof.
  unfold show_recommendation, try_except, bind, lift, log.
  repeat step_lookup; reflexivity.
Qed.

Lemma page_is_not_training (evs : list event) :
  forallb is_page evs = true -> existsb is_training evs = false.
Proof.
  induction evs as [|ev evs IH]; simpl; auto.
  rewrite andb_true_iff. intros [H1 H2]. rewrite (IH H2).
  destruct ev; simpl in *; auto; discriminate.
Qed.

(** ** One request *)

Lemma select_rows_none (f : list value -> bool) (rs : list (list value)) :
  (forall r, In r rs -> f r = false) -> select_rows rs (map f rs) = [].
Proof.
  induction rs as [|r rs IH]; intros H; simpl; auto.
  rewrite (H r (or_introl eq_refl)). apply IH. intros x Hx. apply H. now right.
Qed.

(** Once the classifier has answered, the crop is announced before
    anything is looked up. *)
Lemma show_recommendation_announces (model : Model) (df : DataFrame)
    (month temp rain : Z) (ph : Q) (w : World) (label : value)
    (rest : list value) :
  predict model (input_data month temp rain ph) = inr (label :: rest) ->
  exists added,
    trace (snd (show_recommendation model df month temp rain ph w)) =
    trace w ++ St_success [Text (utf8 "## 推荐种植: "); Fmt label] :: added.
Proof.
  intros H. unfold show_recommendation, try_except, bind, lift, log.
  rewrite H. cbn [item_0].
  repeat step_lookup;
    cbn -[utf8 indent]; rewrite ?trace_emit, <- ?app_assoc;
    eexists; reflexivity.
Qed.

Section RequestFacts.

Variable grow : nat -> Z -> DataFrame -> DataFrame -> exn + Decision.

Lemma load_or_train_stored (df : DataFrame) (w : World) (m : Model) :
  model_pkl w = Some (Pickled m) ->
  load_or_train grow df w = (Return m, w).
Proof. intros H. unfold load_or_train, try_except, joblib_load. now rewrite H. Qed.

Lemma joblib_load_world (w : World) : snd (joblib_load w) = w.
Proof. unfold joblib_load. destruct (model_pkl w) as [[m|e]|]; reflexivity. Qed.

Lemma file_not_found_iff (c : exn_class) :
  file_not_found c = true <-> c = FileNotFoundError.
Proof. destruct c; simpl; split; congruence. Qed.

(** An exception of [joblib.load] that is not [FileNotFoundError] leaves
    the first [try]. *)
Lemma load_or_train_raised (df : DataFrame) (w : World) (e : exn) :
  fst (joblib_load w) = Raise e ->
  class_of e <> FileNotFoundError ->
  load_or_train grow df w = (Raise e, w).
Proof.
  intros H Hc. unfold load_or_train, try_except.
  pose proof (joblib_load_world w) as Hw.
  destruct (joblib_load w) as [r w1]. cbn [fst snd] in *. subst r w1.
  destruct (file_not_found (class_of e)) eqn:E; auto.
  apply file_not_found_iff in E. contradiction.
Qed.

(** A [FileNotFoundError] of [joblib.load] starts the training, behind
    the spinner. *)
Lemma load_or_train_not_found (df : DataFrame) (w : World) (e : exn) :
  fst (joblib_load w) = Raise e ->
  class_of e = FileNotFoundError ->
  load_or_train grow df w =
  train_model grow df
    (emit (St_spinner [Text (utf8 "首次运行正在训练模型...")]) w).
Proof.
  intros H Hc. unfold load_or_train, try_except.
  pose proof (joblib_load_world w) as Hw.
  destruct (joblib_load w) as [r w1]. cbn [fst snd] in *. subst r w1.
  now rewrite (proj2 (file_not_found_iff (class_of e)) Hc).
Qed.

Lemma load_or_train_missing (df : DataFrame) (w : World) :
  model_pkl w = None ->
  load_or_train grow df w =
  train_model grow df
    (emit (St_spinner [Text (utf8 "首次运行正在训练模型...")]) w).
Proof. intros H. unfold load_or_train, try_except, joblib_load. now rewrite H. Qed.

(** How the trainer ends does not depend on the world it starts from. *)
Lemma train_model_any_world (df : DataFrame) (w1 w2 : World) :
  fst (train_model grow df w1) = fst (train_model grow df w2).
Proof.
  destruct (train_model_cases grow df) as [(names & H)|(X & y & H)];
    rewrite !H; auto.
  cbv zeta. destruct (grow 3%nat 42%Z X y); reflexivity.
Qed.

(** A request that trains shows the spinner and then enters the trainer. *)
Lemma recommend_trains (df : DataFrame) (month temp rain : Z) (ph : Q)
    (w : World) (e : exn) :
  fst (joblib_load w) = Raise e ->
  class_of e = FileNotFoundError ->
  exists rest,
    trace (snd (recommend grow df month temp rain ph w)) =
    trace w ++
    St_spinner [Text (utf8 "首次运行正在训练模型...")] :: Call_train_model :: rest.
Proof.
  intros H Hc. unfold recommend, bind.
  rewrite (load_or_train_not_found df w H Hc).
  destruct (train_model_cases grow df) as [(names & Ht)|(X & y & Ht)]; rewrite Ht.
  - cbn [snd]. rewrite !trace_emit, <- !app_assoc. eexists. reflexivity.
  - cbv zeta. destruct (grow 3%nat 42%Z X y) as [ex|t].
    + cbn [snd]. rewrite !trace_emit, <- !app_assoc. eexists. reflexivity.
    + match goal with
      | |- context [show_recommendation ?m df month temp rain ph ?v] =>
          destruct (show_recommendation_quiet m df month temp rain ph v)
            as (_ & added & Ha & _)
      end.
      rewrite Ha. rewrite !trace_emit.
      change (trace (write_model_pkl ?p ?v)) with (trace v).
      rewrite !trace_emit, <- !app_assoc. eexists. reflexivity.
Qed.

End RequestFacts.
(** *** C1: the columns of the prediction frame *)

(** C1 does not hold of the code. On a table whose month column bears its
    second accepted name, every kind resolves and the trainer fits on the
    columns 月份, 温度℃, 降雨mm, 土壤pH; the prediction frame is nevertheless
    built on the fixed labels 种植月, 温度℃, 降雨mm, 土壤pH, whatever was
    resolved, so the columns handed to the classifier differ from those it
    was trained on, and the request ends in the failure report. *)
Theorem C1_prediction_frame_uses_fixed_labels :
  exists m,
    fst (train_model stump rice_alias (fresh (readable rice_alias) None))
      = Return m /\
    feature_names_in_ m =
      [utf8 "月份"; utf8 "温度℃"; utf8 "降雨mm"; utf8 "土壤pH"] /\
    (forall month temp rain ph,
        columns (input_data month temp rain ph) =
        [utf8 "种植月"; utf8 "温度℃"; utf8 "降雨mm"; utf8 "土壤pH"]) /\
    (forall month temp rain ph,
        columns (input_data month temp rain ph) <> feature_names_in_ m) /\
    (forall month temp rain ph,
        predict m (input_data month temp rain ph) =
        inl (Exn ValueError
               (feature_names_message (feature_names_in_ m) predict_columns))) /\
    feature_names_message (feature_names_in_ m) predict_columns =
      utf8 "The feature names should match those that were passed during fit." ++
      [newline] ++
      utf8 "Feature names unseen at fit time:" ++ [newline] ++
      utf8 "- 种植月" ++ [newline] ++
      utf8 "Feature names seen at fit time, yet now missing:" ++ [newline] ++
      utf8 "- 月份" ++ [newline] /\
    exists X y,
      trace (snd (recommend stump rice_alias 5 25 800 (13 # 2)
                    (fresh (readable rice_alias) None))) =
      [St_spinner [Text (utf8 "首次运行正在训练模型...")];
       Call_train_model; Call_fit tree_estimator X y; Call_dump m;
       prediction_failed
         (Exn ValueError
            (feature_names_message (feature_names_in_ m) predict_columns))].
Proof.
  eexists. split; [reflexivity|]. split; [reflexivity|].
  split; [reflexivity|]. split; [intros; vm_compute; discriminate|].
  split; [reflexivity|]. split; [reflexivity|]. do 2 eexists. reflexivity.
Qed.

(** *** C4: a predicted crop without a record *)

(** C4, as stated, does not hold. With a stored model that answers
    "Maize" and a table that has no such crop, the request first announces
    the crop and then reports, through the one handler of its [try], the
    index error of taking the first of no rows: the report does not mention
    "Maize", and it is the very report obtained when the absent crop is
    "Wheat". No error of its own kind carries the label. *)
Lemma C4_missing_description_is_a_generic_failure :
  let run label :=
    trace (snd (recommend stump rice 5 25 800 (13 # 2)
                  (with_model (constant_model (VStr label))))) in
  run (utf8 "Maize") =
    [announced (VStr (utf8 "Maize"));
     St_error [Text (utf8 "预测失败: " ++ out_of_bounds_text)]] /\
  mentions (utf8 "Maize") [Text (utf8 "预测失败: " ++ out_of_bounds_text)]
    = false /\
  nth 1 (run (utf8 "Wheat")) (St_title []) =
  nth 1 (run (utf8 "Maize")) (St_title []).
Proof. repeat split; vm_compute; reflexivity. Qed.

(** C4, amended: for every prediction whose predicted label has no record
    in the 作物 column of the table, the request announces the predicted
    crop and then reports a prediction failure through its one generic
    handler, with the message of the index error raised by taking the
    first of no rows (single positional indexer is out-of-bounds); the
    report is the same for every label and does not carry it; none of the
    descriptive fields is shown and none is defaulted. *)
Theorem C4_missing_description_reported_as_prediction_failure
    (model : Model) (df : DataFrame) (month temp rain : Z) (ph : Q)
    (w : World) (label : value) (rest : list value) (p : nat) :
  predict model (input_data month temp rain ph) = inr (label :: rest) ->
  positions (utf8 "作物") (columns df) 0 = [p] ->
  (forall r, In r (rows df) -> value_eqb (nth p r VNaN) label = false) ->
  show_recommendation model df month temp rain ph w =
  (Return tt,
   emit (prediction_failed (Exn IndexError out_of_bounds_text))
     (emit (announced label) w)).
Proof.
  intros Hp Hc Hr.
  unfold show_recommendation, try_except, bind, lift, log.
  rewrite Hp. cbn [item_0]. unfold column_equals. rewrite Hc.
  cbn -[utf8 indent]. unfold iloc_0, boolean_filter. cbn [rows].
  rewrite (select_rows_none (fun r => value_eqb (nth p r VNaN) label) _ Hr).
  reflexivity.
Qed.

Lemma C4_missing_description_reported_as_prediction_failure_witness :
  predict (constant_model (VStr (utf8 "Maize"))) (input_data 5 25 800 (13 # 2))
    = inr [VStr (utf8 "Maize")] /\
  positions (utf8 "作物") (columns rice) 0 = [4%nat] /\
  show_recommendation (constant_model (VStr (utf8 "Maize"))) rice
    5 25 800 (13 # 2) (with_model (constant_model (VStr (utf8 "Maize")))) =
  (Return tt,
   emit (prediction_failed (Exn IndexError out_of_bounds_text))
     (emit (announced (VStr (utf8 "Maize")))
        (with_model (constant_model (VStr (utf8 "Maize")))))).
Proof.
  split; [reflexivity|]. split; [reflexivity|].
  apply (C4_missing_description_reported_as_prediction_failure
           (constant_model (VStr (utf8 "Maize"))) rice 5 25 800 (13 # 2)
           (with_model (constant_model (VStr (utf8 "Maize"))))
           (label := VStr (utf8 "Maize")) (rest := []) (p := 4%nat)).
  - reflexivity.
  - reflexivity.
  - intros r [<-|[]]. reflexivity.
Defined.

(** *** C7: when the trainer runs *)

(** C7, as stated, does not hold. A [model.pkl] that exists, but whose
    loading raises [FileNotFoundError] (it refers to a companion file that
    is no longer there), is taken for a missing one: the request trains,
    and the artifact on disk is replaced by the new model. The trainer is
    thus invoked although a persisted artifact exists, and the artifact
    does not stay unchanged. *)
Lemma C7_existing_artifact_is_retrained :
  let w := fresh (readable rice_raw) (Some orphaned_artifact) in
  model_pkl w = Some orphaned_artifact /\
  model_pkl w <> None /\
  (exists X y,
      trace (snd (recommend stump rice 5 25 800 (13 # 2) w)) =
      [training_spinner; Call_train_model; Call_fit tree_estimator X y;
       Call_dump (constant_model (VStr (utf8 "Rice")));
       announced (VStr (utf8 "Rice"));
       planting_panel (Fmt (num 25)) (Fmt (num 800)) (Fmt (VNum (13 # 2)));
       issues_panel (Fmt (VStr (utf8 "Blight"))) (Fmt (VStr (utf8 "High")))]) /\
  model_pkl (snd (recommend stump rice 5 25 800 (13 # 2) w)) =
    Some (Pickled (constant_model (VStr (utf8 "Rice")))) /\
  model_pkl (snd (recommend stump rice 5 25 800 (13 # 2) w)) <> model_pkl w.
Proof.
  split; [reflexivity|]. split; [discriminate|].
  split; [do 2 eexists; vm_compute; reflexivity|].
  split; [reflexivity|]. vm_compute. discriminate.
Qed.

(** C7, amended: a request for which [joblib.load] returns the persisted
    model predicts with that model: the trainer is not invoked, nothing is
    fitted or written, and [model.pkl] is left unchanged. The trainer is
    invoked exactly when [joblib.load] raises [FileNotFoundError]: that is
    the case when no [model.pkl] exists, and also when loading an existing
    one raises that error, whose content is then overwritten. When the
    trainer returns a model, that model is the one written to [model.pkl],
    and every later request loads it without training. Any other error of
    [joblib.load] leaves the request at once, nothing trained, shown or
    changed. *)
Theorem C7_trainer_runs_on_file_not_found
    (grow : nat -> Z -> DataFrame -> DataFrame -> exn + Decision)
    (df : DataFrame) (month temp rain : Z) (ph : Q) (w : World) :
  (forall m,
      model_pkl w = Some (Pickled m) ->
      recommend grow df month temp rain ph w =
        show_recommendation m df month temp rain ph w /\
      model_pkl (snd (recommend grow df month temp rain ph w)) = model_pkl w /\
      exists added,
        trace (snd (recommend grow df month temp rain ph w)) = trace w ++ added /\
        existsb is_training added = false) /\
  (forall added,
      trace (snd (recommend grow df month temp rain ph w)) = trace w ++ added ->
      (existsb is_training added = true <->
       exists e, fst (joblib_load w) = Raise e /\
                 class_of e = FileNotFoundError)) /\
  (model_pkl w = None ->
   exists e, fst (joblib_load w) = Raise e /\ class_of e = FileNotFoundError) /\
  (forall e m,
      fst (joblib_load w) = Raise e ->
      class_of e = FileNotFoundError ->
      fst (train_model grow df w) = Return m ->
      let w' := snd (recommend grow df month temp rain ph w) in
      model_pkl w' = Some (Pickled m) /\
      (exists added,
          trace w' = trace w ++ added /\ In Call_train_model added) /\
      forall month' temp' rain' ph',
        recommend grow df month' temp' rain' ph' w' =
          show_recommendation m df month' temp' rain' ph' w' /\
        model_pkl (snd (recommend grow df month' temp' rain' ph' w')) =
          Some (Pickled m)) /\
  (forall e,
      fst (joblib_load w) = Raise e ->
      class_of e <> FileNotFoundError ->
      recommend grow df month temp rain ph w = (Raise e, w)).
Proof.
  assert (Hstored : forall m v mo te ra p,
            model_pkl v = Some (Pickled m) ->
            recommend grow df mo te ra p v = show_recommendation m df mo te ra p v).
  { intros m v mo te ra p H. unfold recommend, bind.
    now rewrite (load_or_train_stored grow df v H). }
  assert (Hraised : forall e,
            fst (joblib_load w) = Raise e ->
            class_of e <> FileNotFoundError ->
            recommend grow df month temp rain ph w = (Raise e, w)).
  { intros e H Hc. unfold recommend, bind.
    now rewrite (load_or_train_raised grow df w H Hc). }
  split; [|split; [|split; [|split]]].
  - intros m H. rewrite (Hstored m w month temp rain ph H).
    destruct (show_recommendation_quiet m df month temp rain ph w)
      as (Hp & added & Ht & Hq).
    split; [reflexivity|]. split; [exact Hp|].
    exists added. split; [exact Ht|]. now apply page_is_not_training.
  - intros added Ht. split.
    + intros Htr.
      destruct (model_pkl w) as [[m|e]|] eqn:E.
      * exfalso. rewrite (Hstored m w month temp rain ph E) in Ht.
        destruct (show_recommendation_quiet m df month temp rain ph w)
          as (_ & added' & Ht' & Hq).
        rewrite Ht' in Ht. apply app_inv_head in Ht. subst added'.
        rewrite (page_is_not_training added Hq) in Htr. discriminate.
      * assert (Hl : fst (joblib_load w) = Raise e)
          by (unfold joblib_load; now rewrite E).
        destruct (file_not_found (class_of e)) eqn:Ec.
        -- exists e. split; [exact Hl|]. now apply file_not_found_iff.
        -- exfalso.
           assert (Hc : class_of e <> FileNotFoundError).
           { intros Hc. apply file_not_found_iff in Hc. congruence. }
           rewrite (Hraised e Hl Hc) in Ht. cbn [snd] in Ht.
           rewrite <- (app_nil_r (trace w)) in Ht at 1.
           apply app_inv_head in Ht. subst added. discriminate.
      * eexists. split; [unfold joblib_load; rewrite E; reflexivity|reflexivity].
    + intros (e & Hl & Hc).
      destruct (recommend_trains grow df month temp rain ph w Hl Hc)
        as [rest Hr].
      rewrite Hr in Ht. apply app_inv_head in Ht. subst added.
      reflexivity.
  - intros Hnone. eexists.
    split; [unfold joblib_load; rewrite Hnone; reflexivity|reflexivity].
  - intros e m Hl Hc Htrain w'.
    set (w0 := emit (St_spinner [Text (utf8 "首次运行正在训练模型...")]) w).
    assert (H0 : fst (train_model grow df w0) = Return m)
      by (rewrite <- Htrain; apply train_model_any_world).
    destruct (train_model grow df w0) as [r w1] eqn:Er. cbn [fst] in H0. subst r.
    destruct (train_model_returns grow df w0 Er) as (Hpk & X & y & Htr).
    assert (Hw' : w' = snd (show_recommendation m df month temp rain ph w1)).
    { unfold w', recommend, bind.
      rewrite (load_or_train_not_found grow df w Hl Hc). fold w0. now rewrite Er. }
    destruct (show_recommendation_quiet m df month temp rain ph w1)
      as (Hp & added & Ht & _).
    assert (Hpk' : model_pkl w' = Some (Pickled m)) by congruence.
    split; [exact Hpk'|]. split.
    + exists (St_spinner [Text (utf8 "首次运行正在训练模型...")]
              :: [Call_train_model; Call_fit tree_estimator X y; Call_dump m]
              ++ added).
      split.
      * rewrite Hw', Ht, Htr. unfold w0. rewrite trace_emit.
        now rewrite <- !app_assoc.
      * right. now left.
    + intros month' temp' rain' ph'.
      rewrite (Hstored m w' month' temp' rain' ph' Hpk'). split; [reflexivity|].
      destruct (show_recommendation_quiet m df month' temp' rain' ph' w')
        as (Hp' & _). congruence.
  - exact Hraised.
Qed.

(** A first request on the sample table trains and writes the model; a
    request that finds garbage in [model.pkl] trains nothing. *)
Lemma C7_trainer_runs_on_file_not_found_witness :
  model_pkl (fresh (readable rice_raw) None) = None /\
  fst (train_model stump rice (fresh (readable rice_raw) None)) =
    Return (constant_model (VStr (utf8 "Rice"))) /\
  model_pkl (snd (recommend stump rice 5 25 800 (13 # 2)
                    (fresh (readable rice_raw) None))) =
    Some (Pickled (constant_model (VStr (utf8 "Rice")))) /\
  recommend stump rice 5 25 800 (13 # 2)
    (fresh (readable rice_raw) (Some garbage_artifact)) =
  (Raise (Exn KeyError (utf8 "120")),
   fresh (readable rice_raw) (Some garbage_artifact)).
Proof.
  split; [reflexivity|]. split; [reflexivity|]. split.
  - destruct (C7_trainer_runs_on_file_not_found stump rice 5 25 800 (13 # 2)
                (fresh (readable rice_raw) None)) as (_ & _ & _ & H & _).
    exact (proj1 (H (Exn FileNotFoundError no_such_file_text)
                    (constant_model (VStr (utf8 "Rice")))
                    eq_refl eq_refl eq_refl)).
  - destruct (C7_trainer_runs_on_file_not_found stump rice 5 25 800 (13 # 2)
                (fresh (readable rice_raw) (Some garbage_artifact)))
      as (_ & _ & _ & _ & H).
    apply H; [reflexivity|discriminate].
Defined.

(** *** C8: inputs at the edges of their ranges *)

(** C8 does not hold of the code, by the defect of C1. The edges of the
    four ranges are within them, and on the table whose month column bears
    its second accepted name a request that finds no [model.pkl] fails for
    every tuple, the edges 1, 0, 0, 3.0 and 12, 40, 2000, 9.0 among them:
    the trainer fits on the resolved labels, the prediction frame carries
    the fixed ones, the classifier refuses it, and the page shows the
    failure report instead of a crop. *)
Theorem C8_edge_inputs_fail_on_alias_table :
  in_range 1 0 0 3 /\ in_range 12 40 2000 9 /\
  exists m X y,
    feature_names_in_ m =
      [utf8 "月份"; utf8 "温度℃"; utf8 "降雨mm"; utf8 "土壤pH"] /\
    forall month temp rain ph,
      recommend stump rice_alias month temp rain ph
        (fresh (readable rice_alias) None) =
      (Return tt,
       {| crop_data_csv := readable rice_alias;
          model_pkl := Some (Pickled m);
          np_random := 0;
          cache_load_data := None;
          trace :=
            [training_spinner; Call_train_model; Call_fit tree_estimator X y;
             Call_dump m;
             prediction_failed
               (Exn ValueError
                  (feature_names_message (feature_names_in_ m)
                     predict_columns))] |}).
Proof.
  split; [|split].
  - unfold in_range, month_min, month_max, temp_min, temp_max, rain_min,
      rain_max, ph_min, ph_max.
    repeat split; try lia; apply Qle_bool_iff; reflexivity.
  - unfold in_range, month_min, month_max, temp_min, temp_max, rain_min,
      rain_max, ph_min, ph_max.
    repeat split; try lia; apply Qle_bool_iff; reflexivity.
  - exists {| feature_names_in_ :=
                [utf8 "月份"; utf8 "温度℃"; utf8 "降雨mm"; utf8 "土壤pH"];
              decide := fun _ => VStr (utf8 "Rice") |}.
    exists {| columns := [utf8 "月份"; utf8 "温度℃"; utf8 "降雨mm"; utf8 "土壤pH"];
              rows := [[num 5; num 25; num 800; VNum (13 # 2)]] |}.
    exists {| columns := [utf8 "作物"]; rows := [[VStr (utf8 "Rice")]] |}.
    split; [reflexivity|]. intros month temp rain ph.
    reflexivity.
Qed.

(** ** The scenario of the specification, run through the whole script *)

Example rice_scenario :
  exists X y,
    app stump 5 25 800 (13 # 2) true (fresh (readable rice_raw) None) =
    (Return tt,
     {| crop_data_csv := readable rice_raw;
        model_pkl := Some (Pickled (constant_model (VStr (utf8 "Rice"))));
        np_random := 0;
        cache_load_data := Some rice;
        trace :=
          [page_title;
           Call_read_csv (utf8 "utf-8");
           St_success [Text (utf8 "数据加载成功！")];
           St_header [Text (utf8 "🛠️ 环境参数")];
           St_spinner [Text (utf8 "首次运行正在训练模型...")];
           Call_train_model;
           Call_fit tree_estimator X y;
           Call_dump (constant_model (VStr (utf8 "Rice")));
           announced (VStr (utf8 "Rice"));
           St_markdown
             [Text ([newline] ++ indent ++ utf8 "**📊 种植信息:**" ++
                    [newline] ++ indent ++ utf8 "- 适宜温度: ");
              Fmt (num 25);
              Text (utf8 "℃" ++ [newline] ++ indent ++ utf8 "- 需水量: ");
              Fmt (num 800);
              Text (utf8 "mm" ++ [newline] ++ indent ++ utf8 "- 最佳pH: ");
              Fmt (VNum (13 # 2));
              Text ([newline] ++ indent)];
           St_markdown
             [Text ([newline] ++ indent ++ utf8 "**⚠️ 常见问题:**" ++
                    [newline] ++ indent ++ utf8 "- ");
              Fmt (VStr (utf8 "Blight"));
              Text ([newline] ++ indent ++ utf8 "- 预计产量: ");
              Fmt (VStr (utf8 "High"));
              Text ([newline] ++ indent)];
           St_dataframe rice;
           St_caption
             [Text (utf8 "注意：本推荐结果基于历史数据，实际种植请结合当地具体情况。")]] |}).
Proof. do 2 eexists. vm_compute. reflexivity. Qed.

(** * Further properties of the script *)

(** ** Normalizing labels *)

Lemma lstrip_blank (ws : str) :
  (forall x, In x ws -> isspace x = true) -> lstrip ws = [].
Proof.
  induction ws as [|c ws IH]; intros H; simpl; auto.
  rewrite (H c (or_introl eq_refl)). apply IH. intros x Hx. apply H. now right.
Qed.

Lemma lstrip_padding (ws s : str) :
  (forall x, In x ws -> isspace x = true) -> lstrip (ws ++ s) = lstrip s.
Proof.
  induction ws as [|c ws IH]; intros H; simpl; auto.
  rewrite (H c (or_introl eq_refl)). apply IH. intros x Hx. apply H. now right.
Qed.

Lemma rstrip_padding (s ws : str) :
  (forall x, In x ws -> isspace x = true) -> rstrip (s ++ ws) = rstrip s.
Proof.
  intros H. unfold rstrip. rewrite rev_app_distr, lstrip_padding; auto.
  intros x Hx. apply H. now apply in_rev.
Qed.

Lemma strip_padding (ws s ws' : str) :
  (forall x, In x ws -> isspace x = true) ->
  (forall x, In x ws' -> isspace x = true) ->
  strip (ws ++ s ++ ws') = strip s.
Proof.
  intros H H'. unfold strip. rewrite (lstrip_padding ws (s ++ ws') H).
  induction s as [|c s IH]; simpl.
  - now rewrite (lstrip_blank ws' H').
  - destruct (isspace c); auto.
    change (c :: s ++ ws') with ((c :: s) ++ ws').
    now apply rstrip_padding.
Qed.

(** X3: whitespace of any kind (spaces, tabs, line ends, the ideographic
    space) before and after a label does not count: the padded label
    normalizes to what the bare label normalizes to. *)
Theorem X3_padding_is_ignored (ws s ws' : str) :
  (forall x, In x ws -> isspace x = true) ->
  (forall x, In x ws' -> isspace x = true) ->
  normalize_label (ws ++ s ++ ws') = normalize_label s.
Proof.
  intros H H'. unfold normalize_label. now rewrite (strip_padding ws s ws' H H').
Qed.

Lemma X3_padding_is_ignored_witness :
  normalize_label ([9; 32]%N ++ utf8 "降雨 (mm)" ++ [12288; 13; 10]%N) =
  utf8 "降雨mm".
Proof.
  rewrite (X3_padding_is_ignored [9; 32]%N (utf8 "降雨 (mm)") [12288; 13; 10]%N).
  - reflexivity.
  - intros x [<-|[<-|[]]]; reflexivity.
  - intros x [<-|[<-|[<-|[]]]]; reflexivity.
Defined.

(** X4: the accepted names pass through the normalization unchanged, so a
    column whose parsed label normalizes to an accepted name (the name
    itself, or the name with blanks and parentheses around its unit) is
    found by the resolver in the table the loader returns. *)
Theorem X4_accepted_names_survive_normalization
    (parsed : DataFrame) (kind : str) (names : list str) (a raw : str) :
  In (kind, names) col_mapping ->
  In a names ->
  In raw (columns parsed) ->
  normalize_label raw = a ->
  normalize_label a = a /\
  In a (columns (normalize_columns parsed)) /\
  exists n, first_present names (columns (normalize_columns parsed)) = Some n.
Proof.
  intros Hk Ha Hraw Hn.
  assert (Hin : In a (columns (normalize_columns parsed))).
  { cbn [columns normalize_columns]. apply in_map_iff. now exists raw. }
  split; [|split; [exact Hin|]].
  - destruct Hk as [[= <- <-]|[[= <- <-]|[[= <- <-]|[[= <- <-]|[[= <- <-]|[]]]]]];
      simpl in Ha;
      repeat (destruct Ha as [<-|Ha]; [reflexivity|]); destruct Ha.
  - now apply (first_present_some names _ a).
Qed.

Lemma X4_accepted_names_survive_normalization_witness :
  normalize_label (utf8 " 温度 (℃) ") = utf8 "温度℃" /\
  exists n, first_present temp_names (columns rice) = Some n.
Proof.
  split; [reflexivity|].
  apply (@X4_accepted_names_survive_normalization rice_raw (utf8 "temp")
           temp_names (utf8 "温度℃") (utf8 "温度(℃)")).
  - right. left. reflexivity.
  - left. reflexivity.
  - right. left. reflexivity.
  - reflexivity.
Defined.

(** ** The resolver and the order of the columns *)

Lemma in_columns_same (name : str) (cols cols' : list str) :
  same_labels cols cols' -> in_columns name cols = in_columns name cols'.
Proof.
  intros H. destruct (in_columns name cols') eqn:E.
  - apply in_columns_iff. apply H. now apply in_columns_iff.
  - destruct (in_columns name cols) eqn:E'; auto.
    apply in_columns_iff in E'. apply H in E'. apply in_columns_iff in E'.
    congruence.
Qed.

Lemma first_present_same (names cols cols' : list str) :
  same_labels cols cols' -> first_present names cols = first_present names cols'.
Proof.
  intros H. induction names as [|n names IH]; simpl; auto.
  now rewrite (in_columns_same n H), IH.
Qed.

(** X5: the resolver looks at which labels the table has, not at where
    they stand or how often: two tables with the same labels resolve to
    the same names, or halt on the same kind with the same message. *)
Theorem X5_resolution_ignores_column_order
    (mapping : list (str * list str)) (cols cols' : list str)
    (selected : dict) (w : World) :
  same_labels cols cols' ->
  select_columns mapping cols selected w =
  select_columns mapping cols' selected w.
Proof.
  intros H. revert selected.
  induction mapping as [|[kind names] mapping IH]; intros selected; simpl; auto.
  rewrite (first_present_same names H).
  destruct (first_present names cols'); auto.
Qed.

Lemma X5_resolution_ignores_column_order_witness :
  same_labels (columns rice) (columns rice_shuffled) /\
  select_columns col_mapping (columns rice_shuffled) [] (fresh absent None) =
  (Return [(utf8 "month", utf8 "种植月"); (utf8 "temp", utf8 "温度℃");
           (utf8 "rain", utf8 "降雨mm"); (utf8 "ph", utf8 "土壤pH");
           (utf8 "crop", utf8 "作物")],
   fresh absent None).
Proof.
  assert (H : same_labels (columns rice) (columns rice_shuffled)).
  { intros x. change (columns rice) with
      [utf8 "种植月"; utf8 "温度℃"; utf8 "降雨mm"; utf8 "土壤pH";
       utf8 "作物"; utf8 "常见问题"; utf8 "产量等级"].
    simpl. tauto. }
  split; [exact H|].
  rewrite <- (X5_resolution_ignores_column_order col_mapping [] (fresh absent None) H).
  reflexivity.
Defined.

(** ** The frames handed to the learner *)

Lemma positions_absent (name : str) (cols : list str) (i : nat) :
  ~ In name cols -> positions name cols i = [].
Proof.
  revert i. induction cols as [|c cols IH]; intros i H; simpl; auto.
  destruct (str_eqb c name) eqn:E.
  - apply str_eqb_eq in E. exfalso. apply H. now left.
  - simpl. apply IH. intros Hin. apply H. now right.
Qed.

Lemma positions_unique (name : str) (cols : list str) (i : nat) :
  NoDup cols -> In name cols ->
  exists p, positions name cols i = [(i + p)%nat] /\ nth p cols [] = name.
Proof.
  revert i. induction cols as [|c cols IH]; intros i Hnd Hin; [destruct Hin|].
  inversion Hnd as [|? ? Hc Hnd']; subst. simpl.
  destruct (str_eqb c name) eqn:E.
  - apply str_eqb_eq in E. subst c.
    rewrite (positions_absent name cols (S i) Hc).
    exists 0%nat. split; auto. now rewrite Nat.add_0_r.
  - destruct Hin as [->|Hin]; [now rewrite str_eqb_refl in E|].
    destruct (IH (S i) Hnd' Hin) as (p & Hp & Hn).
    exists (S p). split; auto. simpl. rewrite Hp. f_equal. lia.
Qed.

(** On a table with distinct labels, [df[[n1, n2, n3, n4]]] is the frame
    of these four columns in this order, row by row. *)
Lemma getitem_list_four (df : DataFrame) (n1 n2 n3 n4 : str) :
  NoDup (columns df) ->
  In n1 (columns df) -> In n2 (columns df) ->
  In n3 (columns df) -> In n4 (columns df) ->
  exists p1 p2 p3 p4,
    nth p1 (columns df) [] = n1 /\ nth p2 (columns df) [] = n2 /\
    nth p3 (columns df) [] = n3 /\ nth p4 (columns df) [] = n4 /\
    getitem_list df [n1; n2; n3; n4] =
    inr {| columns := [n1; n2; n3; n4];
           rows := map (fun r => [nth p1 r VNaN; nth p2 r VNaN;
                                  nth p3 r VNaN; nth p4 r VNaN]) (rows df) |}.
Proof.
  intros Hnd I1 I2 I3 I4.
  destruct (@positions_unique n1 (columns df) 0 Hnd I1) as (p1 & P1 & N1).
  destruct (@positions_unique n2 (columns df) 0 Hnd I2) as (p2 & P2 & N2).
  destruct (@positions_unique n3 (columns df) 0 Hnd I3) as (p3 & P3 & N3).
  destruct (@positions_unique n4 (columns df) 0 Hnd I4) as (p4 & P4 & N4).
  exists p1, p2, p3, p4. repeat split; auto.
  unfold getitem_list. cbn [locate]. rewrite P1, P2, P3, P4.
  unfold take_columns. simpl.
  now rewrite N1, N2, N3, N4.
Qed.

Lemma getitem_one (df : DataFrame) (n : str) :
  NoDup (columns df) -> In n (columns df) ->
  exists p,
    nth p (columns df) [] = n /\
    getitem df n =
    inr {| columns := [n]; rows := map (fun r => [nth p r VNaN]) (rows df) |}.
Proof.
  intros Hnd I.
  destruct (@positions_unique n (columns df) 0 Hnd I) as (p & P & N).
  exists p. split; auto.
  unfold getitem, getitem_list. cbn [locate]. rewrite P.
  unfold take_columns. simpl. now rewrite N.
Qed.

(** X6: on a table with distinct labels in which every kind resolves, the
    learner is handed the four feature columns under their resolved names
    in the fixed order month, temperature, rainfall, pH, wherever they
    stand in the file, and the one crop column as target; both keep the
    rows of the table in their order. *)
Theorem X6_feature_frame_in_role_order
    (grow : nat -> Z -> DataFrame -> DataFrame -> exn + Decision)
    (df : DataFrame) (n1 n2 n3 n4 n5 : str) :
  NoDup (columns df) ->
  first_present month_names (columns df) = Some n1 ->
  first_present temp_names (columns df) = Some n2 ->
  first_present rain_names (columns df) = Some n3 ->
  first_present ph_names (columns df) = Some n4 ->
  first_present crop_names (columns df) = Some n5 ->
  exists p1 p2 p3 p4 p5,
    nth p1 (columns df) [] = n1 /\ nth p2 (columns df) [] = n2 /\
    nth p3 (columns df) [] = n3 /\ nth p4 (columns df) [] = n4 /\
    nth p5 (columns df) [] = n5 /\
    forall w,
      exists tail,
        trace (snd (train_model grow df w)) =
        trace w ++
        Call_train_model ::
        Call_fit tree_estimator
          {| columns := [n1; n2; n3; n4];
             rows := map (fun r => [nth p1 r VNaN; nth p2 r VNaN;
                                    nth p3 r VNaN; nth p4 r VNaN]) (rows df) |}
          {| columns := [n5];
             rows := map (fun r => [nth p5 r VNaN]) (rows df) |} :: tail.
Proof.
  intros Hnd H1 H2 H3 H4 H5.
  destruct (first_present_found _ _ H1) as (_ & _ & _ & I1 & _).
  destruct (first_present_found _ _ H2) as (_ & _ & _ & I2 & _).
  destruct (first_present_found _ _ H3) as (_ & _ & _ & I3 & _).
  destruct (first_present_found _ _ H4) as (_ & _ & _ & I4 & _).
  destruct (first_present_found _ _ H5) as (_ & _ & _ & I5 & _).
  destruct (@getitem_list_four df n1 n2 n3 n4 Hnd I1 I2 I3 I4)
    as (p1 & p2 & p3 & p4 & N1 & N2 & N3 & N4 & HX).
  destruct (@getitem_one df n5 Hnd I5) as (p5 & N5 & Hy).
  destruct (@train_model_resolved grow df n1 n2 n3 n4 n5 H1 H2 H3 H4 H5)
    as (X & y & HX' & Hy' & Ht).
  rewrite HX in HX'. rewrite Hy in Hy'.
  injection HX' as <-. injection Hy' as <-.
  exists p1, p2, p3, p4, p5. repeat split; auto.
  intros w. rewrite Ht. cbv zeta.
  match goal with |- context [grow ?a ?b ?c ?d] => destruct (grow a b c d) end;
    cbn [snd]; rewrite ?trace_emit;
    change (trace (write_model_pkl ?p ?v)) with (trace v);
    rewrite ?trace_emit, <- ?app_assoc; eexists; reflexivity.
Qed.

Lemma X6_feature_frame_in_role_order_witness :
  NoDup (columns rice_shuffled) /\
  exists tail,
    trace (snd (train_model stump rice_shuffled (fresh absent None))) =
    Call_train_model ::
    Call_fit tree_estimator
      {| columns := predict_columns;
         rows := [[num 5; num 25; num 800; VNum (13 # 2)]] |}
      {| columns := [utf8 "作物"]; rows := [[VStr (utf8 "Rice")]] |} :: tail.
Proof.
  assert (Hnd : NoDup (columns rice_shuffled)).
  { repeat constructor; simpl; intros H;
      repeat (destruct H as [H|H]; [discriminate H|]); exact H. }
  split; [exact Hnd|].
  destruct (@X6_feature_frame_in_role_order stump rice_shuffled
              (utf8 "种植月") (utf8 "温度℃") (utf8 "降雨mm")
              (utf8 "土壤pH") (utf8 "作物") Hnd
              eq_refl eq_refl eq_refl eq_refl eq_refl)
    as (p1 & p2 & p3 & p4 & p5 & _ & _ & _ & _ & _ & H).
  destruct (H (fresh absent None)) as [tail Ht].
  exists (skipn 2 (trace (snd (train_model stump rice_shuffled (fresh absent None))))).
  reflexivity.
Defined.

(** ** What the trainer leaves on disk *)

(** X7: the trainer writes [model.pkl] all or nothing: when it returns a
    model, the file holds that model, whatever it held before; when it
    halts on an unresolved kind or the learner raises, the file is left as
    it was. *)
Theorem X7_training_writes_all_or_nothing
    (grow : nat -> Z -> DataFrame -> DataFrame -> exn + Decision)
    (df : DataFrame) (w : World) :
  model_pkl (snd (train_model grow df w)) =
  match fst (train_model grow df w) with
  | Return m => Some (Pickled m)
  | _ => model_pkl w
  end.
Proof.
  destruct (train_model_cases grow df) as [(names & H)|(X & y & H)]; rewrite H.
  - reflexivity.
  - cbv zeta. destruct (grow 3%nat 42%Z X y); reflexivity.
Qed.

(** ** The prediction block *)

Lemma labels_eqb_eq (a b : list str) : labels_eqb a b = true <-> a = b.
Proof.
  revert b. induction a as [|x a IH]; intros [|y b]; simpl;
    try (split; [discriminate|discriminate]); [split; auto|].
  rewrite andb_true_iff, str_eqb_eq, IH. split.
  - now intros [-> ->].
  - intros H. injection H as -> ->. auto.
Qed.

(** X8: with a model fitted on labels other than the four written in the
    script, no request gets as far as a crop: whatever the inputs and the
    table, the only thing shown is the failure report with the
    classifier's complaint about the feature names, which lists the labels
    unseen at fit time and those now missing. *)
Theorem X8_foreign_labels_fail_every_request
    (model : Model) (df : DataFrame) (month temp rain : Z) (ph : Q)
    (w : World) :
  feature_names_in_ model <> predict_columns ->
  show_recommendation model df month temp rain ph w =
  (Return tt,
   emit (prediction_failed
           (Exn ValueError
              (feature_names_message (feature_names_in_ model) predict_columns)))
     w).
Proof.
  intros H.
  assert (E : labels_eqb predict_columns (feature_names_in_ model) = false).
  { destruct (labels_eqb predict_columns (feature_names_in_ model)) eqn:E; auto.
    apply labels_eqb_eq in E. congruence. }
  unfold show_recommendation, try_except, bind, lift, predict.
  cbn [columns input_data]. rewrite E. reflexivity.
Qed.

Lemma X8_foreign_labels_fail_every_request_witness :
  show_recommendation
    {| feature_names_in_ := [utf8 "月份"; utf8 "温度℃"; utf8 "降雨mm"; utf8 "土壤pH"];
       decide := fun _ => VStr (utf8 "Rice") |}
    rice_alias 12 40 2000 9 (fresh absent None) =
  (Return tt,
   emit (St_error
           [Text (utf8 "预测失败: " ++
                  utf8 "The feature names should match those that were passed during fit." ++
                  [newline] ++
                  utf8 "Feature names unseen at fit time:" ++ [newline] ++
                  utf8 "- 种植月" ++ [newline] ++
                  utf8 "Feature names seen at fit time, yet now missing:" ++
                  [newline] ++
                  utf8 "- 月份" ++ [newline])])
     (fresh absent None)).
Proof.
  rewrite X8_foreign_labels_fail_every_request.
  - reflexivity.
  - vm_compute. discriminate.
Defined.

(** X9: the description is looked up under the fixed label 作物, not
    under the name the crop column resolved to: on a table without a
    column labelled 作物 (its crop column bearing another accepted name),
    every predicted crop is announced and then followed by the failure
    report of the missing key. *)
Theorem X9_description_needs_the_fixed_crop_label
    (model : Model) (df : DataFrame) (month temp rain : Z) (ph : Q)
    (w : World) (label : value) (rest : list value) :
  predict model (input_data month temp rain ph) = inr (label :: rest) ->
  ~ In (utf8 "作物") (columns df) ->
  show_recommendation model df month temp rain ph w =
  (Return tt,
   emit (prediction_failed (key_error (utf8 "作物")))
     (emit (announced label) w)).
Proof.
  intros Hp Hc.
  unfold show_recommendation, try_except, bind, lift, log.
  rewrite Hp. cbn [item_0]. unfold column_equals.
  rewrite (positions_absent (utf8 "作物") (columns df) 0 Hc). reflexivity.
Qed.

Lemma X9_description_needs_the_fixed_crop_label_witness :
  first_present crop_names (columns rice_crop_alias) = Some (utf8 "crop") /\
  show_recommendation (constant_model (VStr (utf8 "Rice"))) rice_crop_alias
    5 25 800 (13 # 2) (fresh absent None) =
  (Return tt,
   emit (prediction_failed (key_error (utf8 "作物")))
     (emit (announced (VStr (utf8 "Rice"))) (fresh absent None))).
Proof.
  split; [reflexivity|].
  apply (@X9_description_needs_the_fixed_crop_label
           (constant_model (VStr (utf8 "Rice"))) rice_crop_alias
           5 25 800 (13 # 2) (fresh absent None) (VStr (utf8 "Rice")) []).
  - reflexivity.
  - simpl. intros H.
    repeat (destruct H as [H|H]; [discriminate H|]). exact H.
Defined.

Lemma select_rows_first (f : list value -> bool)
    (before : list (list value)) (r : list value) (after : list (list value)) :
  (forall b, In b before -> f b = false) ->
  f r = true ->
  select_rows (before ++ r :: after) (map f (before ++ r :: after)) =
  r :: select_rows after (map f after).
Proof.
  induction before as [|b before IH]; intros Hb Hr; simpl.
  - now rewrite Hr.
  - rewrite (Hb b (or_introl eq_refl)). apply IH; auto.
    intros x Hx. apply Hb. now right.
Qed.

(** X10: of several records for the predicted crop, the first in the
    order of the table is the one described. When the label 作物 and the
    five displayed labels each name exactly one column, the request shows
    the announcement, the planting panel and the issues panel, filled from
    the cells of that first record, and no failure. *)
Theorem X10_first_record_is_described
    (model : Model) (df : DataFrame) (month temp rain : Z) (ph : Q)
    (w : World) (label : value) (rest : list value)
    (before : list (list value)) (r : list value) (after : list (list value))
    (pc p1 p2 p3 p4 p5 : nat) :
  predict model (input_data month temp rain ph) = inr (label :: rest) ->
  positions (utf8 "作物") (columns df) 0 = [pc] ->
  rows df = before ++ r :: after ->
  (forall b, In b before -> value_eqb (nth pc b VNaN) label = false) ->
  value_eqb (nth pc r VNaN) label = true ->
  positions (utf8 "温度℃") (columns df) 0 = [p1] ->
  positions (utf8 "降雨mm") (columns df) 0 = [p2] ->
  positions (utf8 "土壤pH") (columns df) 0 = [p3] ->
  positions (utf8 "常见问题") (columns df) 0 = [p4] ->
  positions (utf8 "产量等级") (columns df) 0 = [p5] ->
  show_recommendation model df month temp rain ph w =
  (Return tt,
   emit (issues_panel (Fmt (nth p4 r VNaN)) (Fmt (nth p5 r VNaN)))
     (emit (planting_panel (Fmt (nth p1 r VNaN)) (Fmt (nth p2 r VNaN))
              (Fmt (nth p3 r VNaN)))
        (emit (announced label) w))).
Proof.
  intros Hp Hc Hrows Hb Hr H1 H2 H3 H4 H5.
  unfold show_recommendation, try_except, bind, lift, log.
  rewrite Hp. cbn [item_0]. unfold column_equals. rewrite Hc.
  cbn -[utf8 indent]. unfold iloc_0, boolean_filter. cbn [rows columns].
  rewrite Hrows.
  rewrite (select_rows_first (fun x => value_eqb (nth pc x VNaN) label)
             before r after Hb Hr).
  cbn -[utf8 indent]. unfold series_item. cbn [index values].
  rewrite H1, H2, H3, H4, H5. reflexivity.
Qed.

Lemma X10_first_record_is_described_witness :
  show_recommendation (constant_model (VStr (utf8 "Rice"))) two_rice
    5 25 800 (13 # 2) (fresh absent None) =
  (Return tt,
   emit (issues_panel (Fmt (VStr (utf8 "Blight"))) (Fmt (VStr (utf8 "High"))))
     (emit (planting_panel (Fmt (num 25)) (Fmt (num 800)) (Fmt (VNum (13 # 2))))
        (emit (announced (VStr (utf8 "Rice"))) (fresh absent None)))).
Proof.
  apply (@X10_first_record_is_described
           (constant_model (VStr (utf8 "Rice"))) two_rice 5 25 800 (13 # 2)
           (fresh absent None) (VStr (utf8 "Rice")) []
           [nth 0 (rows two_rice) []] (nth 1 (rows two_rice) [])
           [nth 2 (rows two_rice) []] 4 1 2 3 5 6);
    try reflexivity.
  intros b [<-|[]]. reflexivity.
Defined.

(** X11: a request with a model shows one of four things and nothing
    else: the failure report alone; the announcement and the failure
    report; the announcement, the planting panel and the failure report;
    or the announcement and both panels. There is never more than one
    failure report, it is always the last element, and no panel comes
    without the announcement before it. *)
Theorem X11_request_shows_one_of_four_pages
    (model : Model) (df : DataFrame) (month temp rain : Z) (ph : Q)
    (w : World) :
  exists shown,
    trace (snd (show_recommendation model df month temp rain ph w)) =
    trace w ++ shown /\
    ((exists e, shown = [prediction_failed e]) \/
     (exists label e, shown = [announced label; prediction_failed e]) \/
     (exists label a b c e,
         shown = [announced label; planting_panel a b c; prediction_failed e]) \/
     (exists label a b c d f,
         shown = [announced label; planting_panel a b c; issues_panel d f])).
Proof.
  unfold show_recommendation, try_except, bind, lift, log.
  repeat step_lookup;
    cbn -[utf8 indent]; rewrite ?trace_emit, <- ?app_assoc;
    eexists; (split; [reflexivity|]);
    first [ left; eexists; reflexivity
          | right; left; do 2 eexists; reflexivity
          | right; right; left; do 5 eexists; reflexivity
          | right; right; right; do 6 eexists; reflexivity ].
Qed.

(** ** Finding the model *)

Section ModelResolution.

Variable grow : nat -> Z -> DataFrame -> DataFrame -> exn + Decision.

(** X13: when the learner raises during the training a request starts,
    the exception leaves the request, outside the prediction handler: no
    failure report is shown, only the spinner; nothing is written, so
    [model.pkl] is still absent and the next request trains again. *)
Theorem X13_learner_error_leaves_the_request
    (df : DataFrame) (month temp rain : Z) (ph : Q) (w : World) (e : exn) :
  model_pkl w = None ->
  fst (train_model grow df w) = Raise e ->
  fst (recommend grow df month temp rain ph w) = Raise e /\
  model_pkl (snd (recommend grow df month temp rain ph w)) = None /\
  exists X y,
    trace (snd (recommend grow df month temp rain ph w)) =
    trace w ++ [training_spinner; Call_train_model; Call_fit tree_estimator X y].
Proof.
  intros Hn Ht. unfold recommend, bind.
  rewrite (load_or_train_missing grow df w Hn).
  destruct (train_model_cases grow df) as [(names & H)|(X & y & H)];
    rewrite H in *; [discriminate|].
  cbv zeta in *. destruct (grow 3%nat 42%Z X y) as [e'|t]; [|discriminate].
  cbn [fst snd] in *. injection Ht as ->.
  split; [reflexivity|]. split; [exact Hn|].
  exists X, y. rewrite !trace_emit. now rewrite <- !app_assoc.
Qed.

(** A trainer that stops has met a kind without any accepted name among
    the labels, every kind before it being resolved. *)
Lemma train_model_stop_inv (df : DataFrame) (w : World) :
  fst (train_model grow df w) = Stop ->
  exists pre kind names post,
    col_mapping = pre ++ (kind, names) :: post /\
    (forall k a, In (k, a) pre -> first_present a (columns df) <> None) /\
    first_present names (columns df) = None.
Proof.
  intros Ht.
  destruct (first_present month_names (columns df)) as [n1|] eqn:E1;
    [|exists [], (utf8 "month"), month_names, (tl col_mapping);
      repeat split; auto; intros k a []].
  destruct (first_present temp_names (columns df)) as [n2|] eqn:E2;
    [|exists (firstn 1 col_mapping), (utf8 "temp"), temp_names,
        (skipn 2 col_mapping); repeat split; auto;
      intros k a [[= <- <-]|[]]; congruence].
  destruct (first_present rain_names (columns df)) as [n3|] eqn:E3;
    [|exists (firstn 2 col_mapping), (utf8 "rain"), rain_names,
        (skipn 3 col_mapping); repeat split; auto;
      intros k a [[= <- <-]|[[= <- <-]|[]]]; congruence].
  destruct (first_present ph_names (columns df)) as [n4|] eqn:E4;
    [|exists (firstn 3 col_mapping), (utf8 "ph"), ph_names,
        (skipn 4 col_mapping); repeat split; auto;
      intros k a [[= <- <-]|[[= <- <-]|[[= <- <-]|[]]]]; congruence].
  destruct (first_present crop_names (columns df)) as [n5|] eqn:E5;
    [|exists (firstn 4 col_mapping), (utf8 "crop"), crop_names,
        (skipn 5 col_mapping); repeat split; auto;
      intros k a [[= <- <-]|[[= <- <-]|[[= <- <-]|[[= <- <-]|[]]]]];
      congruence].
  exfalso.
  destruct (@train_model_resolved grow df n1 n2 n3 n4 n5 E1 E2 E3 E4 E5)
    as (X & y & _ & _ & H).
  rewrite H in Ht. cbv zeta in Ht.
  destruct (grow 3%nat 42%Z X y); discriminate.
Qed.

(** X14: when a kind of column cannot be resolved during the training a
    request starts, the script stops there: the spinner and the
    missing-column message are all the request shows, no prediction is
    attempted and [model.pkl] is still absent. *)
Theorem X14_unresolved_kind_stops_the_request
    (df : DataFrame) (month temp rain : Z) (ph : Q) (w : World) :
  model_pkl w = None ->
  fst (train_model grow df w) = Stop ->
  fst (recommend grow df month temp rain ph w) = Stop /\
  model_pkl (snd (recommend grow df month temp rain ph w)) = None /\
  exists kind names,
    In (kind, names) col_mapping /\
    (forall x, In x names -> ~ In x (columns df)) /\
    trace (snd (recommend grow df month temp rain ph w)) =
    trace w ++ [training_spinner; Call_train_model;
                St_error [Text no_match_text; FmtList names]].
Proof.
  intros Hn Ht.
  destruct (train_model_stop_inv df w Ht)
    as (pre & kind & names & post & Hm & Hpre & Hnone).
  unfold recommend, bind.
  rewrite (load_or_train_missing grow df w Hn).
  rewrite (train_model_halts grow df pre kind names post _ Hm Hpre Hnone).
  split; [reflexivity|]. split; [exact Hn|].
  exists kind, names. split; [rewrite Hm; apply in_or_app; right; now left|].
  split; [now apply first_present_none|].
  cbn [snd]. rewrite !trace_emit. now rewrite <- !app_assoc.
Qed.

End ModelResolution.

Lemma X13_learner_error_leaves_the_request_witness :
  model_pkl (fresh absent None) = None /\
  fst (train_model failing_learner rice (fresh absent None)) =
    Raise (Exn ValueError (utf8 "could not convert string to float")) /\
  fst (recommend failing_learner rice 5 25 800 (13 # 2) (fresh absent None)) =
    Raise (Exn ValueError (utf8 "could not convert string to float")).
Proof.
  split; [reflexivity|]. split; [reflexivity|].
  exact (proj1 (@X13_learner_error_leaves_the_request failing_learner rice
                  5 25 800 (13 # 2) (fresh absent None) _ eq_refl eq_refl)).
Defined.

Lemma X14_unresolved_kind_stops_the_request_witness :
  model_pkl (fresh absent None) = None /\
  fst (train_model stump no_ph (fresh absent None)) = Stop /\
  fst (recommend stump no_ph 5 25 800 (13 # 2) (fresh absent None)) = Stop.
Proof.
  split; [reflexivity|]. split; [reflexivity|].
  exact (proj1 (@X14_unresolved_kind_stops_the_request stump no_ph
                  5 25 800 (13 # 2) (fresh absent None) eq_refl eq_refl)).
Defined.

(** ** Training on the labels the page uses *)

Lemma first_present_head (n : str) (rest cols : list str) :
  In n cols -> first_present (n :: rest) cols = Some n.
Proof.
  intros H. simpl. now rewrite (proj2 (in_columns_iff n cols) H).
Qed.

Section TrainedOnPageLabels.

Variable grow : nat -> Z -> DataFrame -> DataFrame -> exn + Decision.

(** A trainer that returns has resolved every kind, and its model is the
    classifier the learner fitted on the selected columns. *)
Lemma train_model_return_inv (df : DataFrame) (w : World) (m : Model) :
  fst (train_model grow df w) = Return m ->
  exists n1 n2 n3 n4 n5 X y t,
    first_present month_names (columns df) = Some n1 /\
    first_present temp_names (columns df) = Some n2 /\
    first_present rain_names (columns df) = Some n3 /\
    first_present ph_names (columns df) = Some n4 /\
    first_present crop_names (columns df) = Some n5 /\
    getitem_list df [n1; n2; n3; n4] = inr X /\
    grow 3%nat 42%Z X y = inr t /\
    m = {| feature_names_in_ := columns X; decide := t |} /\
    forall v,
      train_model grow df v =
      (Return m,
       emit (Call_dump m)
         (write_model_pkl (Pickled m)
            (emit (Call_fit tree_estimator X y) (emit Call_train_model v)))).
Proof.
  intros Ht.
  assert (Hstop : forall pre kind names post,
            col_mapping = pre ++ (kind, names) :: post ->
            (forall k a, In (k, a) pre -> first_present a (columns df) <> None) ->
            first_present names (columns df) = None -> False).
  { intros pre kind names post Hm Hpre Hn.
    rewrite (train_model_halts grow df pre kind names post w Hm Hpre Hn) in Ht.
    discriminate. }
  destruct (first_present month_names (columns df)) as [n1|] eqn:E1;
    [|exfalso; apply (Hstop [] (utf8 "month") month_names (tl col_mapping));
      auto; intros k a []].
  destruct (first_present temp_names (columns df)) as [n2|] eqn:E2;
    [|exfalso; apply (Hstop (firstn 1 col_mapping) (utf8 "temp") temp_names
                        (skipn 2 col_mapping)); auto;
      intros k a [[= <- <-]|[]]; congruence].
  destruct (first_present rain_names (columns df)) as [n3|] eqn:E3;
    [|exfalso; apply (Hstop (firstn 2 col_mapping) (utf8 "rain") rain_names
                        (skipn 3 col_mapping)); auto;
      intros k a [[= <- <-]|[[= <- <-]|[]]]; congruence].
  destruct (first_present ph_names (columns df)) as [n4|] eqn:E4;
    [|exfalso; apply (Hstop (firstn 3 col_mapping) (utf8 "ph") ph_names
                        (skipn 4 col_mapping)); auto;
      intros k a [[= <- <-]|[[= <- <-]|[[= <- <-]|[]]]]; congruence].
  destruct (first_present crop_names (columns df)) as [n5|] eqn:E5;
    [|exfalso; apply (Hstop (firstn 4 col_mapping) (utf8 "crop") crop_names
                        (skipn 5 col_mapping)); auto;
      intros k a [[= <- <-]|[[= <- <-]|[[= <- <-]|[[= <- <-]|[]]]]];
      congruence].
  destruct (@train_model_resolved grow df n1 n2 n3 n4 n5 E1 E2 E3 E4 E5)
    as (X & y & HX & _ & H).
  rewrite H in Ht. cbv zeta in Ht.
  destruct (grow 3%nat 42%Z X y) as [e|t] eqn:Eg; [discriminate|].
  cbn [fst] in Ht. injection Ht as <-.
  exists n1, n2, n3, n4, n5, X, y, t.
  repeat split; auto; try (intros v; rewrite H; cbv zeta; now rewrite Eg).
Qed.

(** X15: on a table with distinct labels that has the four columns 种植月,
    温度℃, 降雨mm, 土壤pH, a request that finds no [model.pkl] and whose
    training returns a model gets a model fitted on exactly the labels of
    the prediction frame; the classifier accepts the frame, and the crop
    the fitted model assigns to the inputs is announced right after the
    training, whatever the inputs. *)
Theorem X15_page_labels_train_and_predict
    (df : DataFrame) (month temp rain : Z) (ph : Q) (w : World) (m : Model) :
  NoDup (columns df) ->
  (forall c, In c predict_columns -> In c (columns df)) ->
  model_pkl w = None ->
  fst (train_model grow df w) = Return m ->
  feature_names_in_ m = predict_columns /\
  exists X y added,
    trace (snd (recommend grow df month temp rain ph w)) =
    trace w ++
    [training_spinner; Call_train_model; Call_fit tree_estimator X y;
     Call_dump m] ++
    announced (decide m
                 [inject_Z month; inject_Z temp; inject_Z rain; ph]) :: added.
Proof.
  intros Hnd Hin Hn Ht.
  destruct (train_model_return_inv df w Ht)
    as (n1 & n2 & n3 & n4 & n5 & X & y & t & E1 & E2 & E3 & E4 & _ & HX & _ & Hm & Hv).
  assert (I1 : In (utf8 "种植月") (columns df)) by (apply Hin; simpl; auto).
  assert (I2 : In (utf8 "温度℃") (columns df)) by (apply Hin; simpl; auto).
  assert (I3 : In (utf8 "降雨mm") (columns df)) by (apply Hin; simpl; auto).
  assert (I4 : In (utf8 "土壤pH") (columns df)) by (apply Hin; simpl; auto 6).
  unfold month_names in E1. rewrite (@first_present_head _ _ _ I1) in E1.
  unfold temp_names in E2. rewrite (@first_present_head _ _ _ I2) in E2.
  unfold rain_names in E3. rewrite (@first_present_head _ _ _ I3) in E3.
  unfold ph_names in E4. rewrite (@first_present_head _ _ _ I4) in E4.
  injection E1 as <-. injection E2 as <-. injection E3 as <-. injection E4 as <-.
  destruct (@getitem_list_four df (utf8 "种植月") (utf8 "温度℃") (utf8 "降雨mm")
              (utf8 "土壤pH") Hnd I1 I2 I3 I4)
    as (p1 & p2 & p3 & p4 & _ & _ & _ & _ & HX').
  rewrite HX' in HX. injection HX as HX.
  assert (Hf : feature_names_in_ m = predict_columns).
  { rewrite Hm. cbn [feature_names_in_]. now rewrite <- HX. }
  split; [exact Hf|].
  assert (Hp : predict m (input_data month temp rain ph) =
               inr [decide m
                      [inject_Z month; inject_Z temp; inject_Z rain; ph]]).
  { unfold predict. cbn [columns rows input_data]. rewrite Hf. reflexivity. }
  unfold recommend, bind.
  rewrite (load_or_train_missing grow df w Hn), Hv.
  match goal with
  | |- context [show_recommendation m df month temp rain ph ?v] =>
      destruct (show_recommendation_announces m df month temp rain ph v
                  (label := decide m
                              [inject_Z month; inject_Z temp; inject_Z rain; ph])
                  (rest := []) Hp) as [added Ha]
  end.
  exists X, y, added. rewrite Ha. rewrite !trace_emit.
  change (trace (write_model_pkl ?p ?v)) with (trace v).
  rewrite !trace_emit. now rewrite <- !app_assoc.
Qed.

End TrainedOnPageLabels.

Lemma X15_page_labels_train_and_predict_witness :
  NoDup (columns rice_shuffled) /\
  (forall c, In c predict_columns -> In c (columns rice_shuffled)) /\
  fst (train_model stump rice_shuffled (fresh absent None)) =
    Return (constant_model (VStr (utf8 "Rice"))) /\
  feature_names_in_ (constant_model (VStr (utf8 "Rice"))) = predict_columns.
Proof.
  assert (Hnd : NoDup (columns rice_shuffled)).
  { repeat constructor; simpl; intros H;
      repeat (destruct H as [H|H]; [discriminate H|]); exact H. }
  assert (Hin : forall c, In c predict_columns -> In c (columns rice_shuffled)).
  { intros c [<-|[<-|[<-|[<-|[]]]]]; simpl; tauto. }
  split; [exact Hnd|]. split; [exact Hin|]. split; [reflexivity|].
  exact (proj1 (@X15_page_labels_train_and_predict stump rice_shuffled
                  5 25 800 (13 # 2) (fresh absent None)
                  (constant_model (VStr (utf8 "Rice")))
                  Hnd Hin eq_refl eq_refl)).
Defined.

(** ** The whole page *)

Lemma is_unique_iff (cols : list str) : is_unique cols = true <-> NoDup cols.
Proof.
  induction cols as [|c cols IH]; simpl.
  - split; [constructor|reflexivity].
  - rewrite andb_true_iff, negb_true_iff, IH. split.
    + intros [Hc Hn]. constructor; auto.
      intros Hin. apply in_columns_iff in Hin. congruence.
    + intros H. inversion H as [|? ? Hc Hn]; subst. split; auto.
      destruct (in_columns c cols) eqn:E; auto.
      apply in_columns_iff in E. contradiction.
Qed.

(** A load that returns a table does so from any world with the same file
    and the same cache entry; it adds only its calls of [read_csv] to the
    trace and leaves [model.pkl] alone. *)
Lemma load_data_returns_frame (w : World) (df : DataFrame) :
  fst (load_data w) = Return df ->
  forall w',
    crop_data_csv w' = crop_data_csv w ->
    cache_load_data w' = cache_load_data w ->
    exists tried,
      fst (load_data w') = Return df /\
      trace (snd (load_data w')) = trace w' ++ map Call_read_csv tried /\
      model_pkl (snd (load_data w')) = model_pkl w'.
Proof.
  intros Hr w' Hcsv Hcache.
  destruct (cache_load_data w) as [d|] eqn:Ec.
  - unfold load_data, st_cache_data in *. rewrite Ec in Hr. rewrite Hcache.
    cbn [fst snd] in *. exists []. now rewrite app_nil_r.
  - rewrite (load_data_cold w Ec) in Hr. unfold load_data_body in Hr.
    destruct (loop_inv encodings w)
      as [(pre & e & post & parsed & Henc & Hpre & He & Hl)
         |[(pre & e & post & ex & _ & _ & _ & _ & Hl)|(_ & Hl)]];
      rewrite Hl in Hr; try discriminate.
    cbn [fst] in Hr. injection Hr as <-.
    rewrite <- Hcsv in Hpre, He.
    rewrite (load_data_parsed w' pre e post Hcache Henc Hpre He).
    exists (pre ++ [e]). cbn [fst snd].
    change (trace (fill_cache ?d ?v)) with (trace v).
    change (model_pkl (fill_cache ?d ?v)) with (model_pkl v).
    now rewrite trace_after_reads, pkl_after_reads.
Qed.

(** After a load that returned, the script shows the banner and the
    sidebar, runs the request if the button was pressed and, if the
    request returns, goes on to the data viewer, which refuses a table
    with a repeated label, and to the caption. *)
Lemma app_after_load
    (grow : nat -> Z -> DataFrame -> DataFrame -> exn + Decision)
    (month temp rain : Z) (ph : Q) (button : bool) (w w1 : World)
    (df : DataFrame) :
  load_data (emit page_title w) = (Return df, w1) ->
  app grow month temp rain ph button w =
  match (if button then recommend grow df month temp rain ph else ret tt)
          (emit sidebar_header (emit loaded_banner w1)) with
  | (Return _, w3) =>
      if is_unique (columns df)
      then (Return tt, emit disclaimer (emit (St_dataframe df) w3))
      else (Raise (Exn ValueError (duplicate_columns_text (columns df))), w3)
  | (Raise e, w3) => (Raise e, w3)
  | (Stop, w3) => (Stop, w3)
  end.
Proof.
  intros H. unfold app, bind, log, try_except. rewrite H.
  unfold sidebar_header, loaded_banner, disclaimer, st_dataframe, raise, log.
  cbn -[utf8 recommend is_unique duplicate_columns_text].
  match goal with
  | |- context [(if button then _ else _) ?v] =>
      destruct ((if button then recommend grow df month temp rain ph
                 else ret tt) v) as [[[]|e|] w3]
  end; try reflexivity.
  destruct (is_unique (columns df)); reflexivity.
Qed.

(** X16: when the table loads with distinct labels and a model is stored,
    pressing the button never costs the rest of the page: whether the
    prediction block ends on both panels or on a failure report, the
    script returns, after the request come the data viewer with the loaded
    table and the caption, [model.pkl] is untouched and nothing is
    trained. *)
Theorem X16_page_is_completed_after_a_request
    (grow : nat -> Z -> DataFrame -> DataFrame -> exn + Decision)
    (month temp rain : Z) (ph : Q) (w : World) (df : DataFrame) (m : Model) :
  fst (load_data w) = Return df ->
  NoDup (columns df) ->
  model_pkl w = Some (Pickled m) ->
  fst (app grow month temp rain ph true w) = Return tt /\
  model_pkl (snd (app grow month temp rain ph true w)) = model_pkl w /\
  exists tried shown,
    trace (snd (app grow month temp rain ph true w)) =
    trace w ++ page_title :: map Call_read_csv tried ++
    loaded_banner :: sidebar_header :: shown ++ [St_dataframe df; disclaimer] /\
    forallb is_page shown = true.
Proof.
  intros Hl Hnd Hm.
  apply is_unique_iff in Hnd.
  destruct (load_data_returns_frame w Hl (emit page_title w) eq_refl eq_refl)
    as (tried & Hr & Ht & Hp).
  destruct (load_data (emit page_title w)) as [r w1] eqn:El.
  cbn [fst snd] in *. subst r.
  rewrite (app_after_load grow month temp rain ph true w El). rewrite Hnd.
  set (w2 := emit sidebar_header (emit loaded_banner w1)).
  assert (Hm2 : model_pkl w2 = Some (Pickled m)).
  { unfold w2. cbn [model_pkl emit]. now rewrite Hp. }
  assert (Hrec : recommend grow df month temp rain ph w2 =
                 show_recommendation m df month temp rain ph w2).
  { unfold recommend, bind. now rewrite (load_or_train_stored grow df w2 Hm2). }
  rewrite Hrec.
  pose proof (show_recommendation_returns m df month temp rain ph w2) as Hret.
  destruct (show_recommendation_quiet m df month temp rain ph w2)
    as (Hq & shown & Hs & Hpage).
  destruct (show_recommendation m df month temp rain ph w2) as [r w3].
  cbn [fst snd] in *. subst r.
  split; [reflexivity|]. split.
  - cbn [snd model_pkl emit]. rewrite Hq, Hm2. now rewrite Hm.
  - exists tried, shown. split; [|exact Hpage].
    cbn [snd]. rewrite !trace_emit, Hs. unfold w2.
    rewrite !trace_emit, Ht, trace_emit.
    rewrite <- !app_assoc. reflexivity.
Qed.

Lemma X16_page_is_completed_after_a_request_witness :
  fst (load_data (with_model (constant_model (VStr (utf8 "Maize"))))) =
    Return rice /\
  NoDup (columns rice) /\
  model_pkl (with_model (constant_model (VStr (utf8 "Maize")))) =
    Some (Pickled (constant_model (VStr (utf8 "Maize")))) /\
  fst (app stump 5 25 800 (13 # 2) true
         (with_model (constant_model (VStr (utf8 "Maize"))))) = Return tt.
Proof.
  assert (Hnd : NoDup (columns rice)) by (apply is_unique_iff; reflexivity).
  split; [reflexivity|]. split; [exact Hnd|]. split; [reflexivity|].
  exact (proj1 (@X16_page_is_completed_after_a_request stump 5 25 800 (13 # 2)
                  (with_model (constant_model (VStr (utf8 "Maize")))) rice
                  (constant_model (VStr (utf8 "Maize"))) eq_refl Hnd eq_refl)).
Defined.

(** X17: a run in which the button is not pressed never looks at
    [model.pkl]: when the table loads with distinct labels, the page is
    the title, the banner, the sidebar, the data viewer with the loaded
    table and the caption; the run returns, trains nothing and leaves the
    file as it is, even if the file is missing or cannot be loaded. *)
Theorem X17_idle_page_ignores_the_model
    (grow : nat -> Z -> DataFrame -> DataFrame -> exn + Decision)
    (month temp rain : Z) (ph : Q) (w : World) (df : DataFrame) :
  fst (load_data w) = Return df ->
  NoDup (columns df) ->
  fst (app grow month temp rain ph false w) = Return tt /\
  model_pkl (snd (app grow month temp rain ph false w)) = model_pkl w /\
  exists tried,
    trace (snd (app grow month temp rain ph false w)) =
    trace w ++ page_title :: map Call_read_csv tried ++
    [loaded_banner; sidebar_header; St_dataframe df; disclaimer].
Proof.
  intros Hl Hnd.
  apply is_unique_iff in Hnd.
  destruct (load_data_returns_frame w Hl (emit page_title w) eq_refl eq_refl)
    as (tried & Hr & Ht & Hp).
  destruct (load_data (emit page_title w)) as [r w1] eqn:El.
  cbn [fst snd] in *. subst r.
  rewrite (app_after_load grow month temp rain ph false w El). rewrite Hnd.
  cbn [ret fst snd]. split; [reflexivity|]. split.
  - cbn [model_pkl emit]. now rewrite Hp.
  - exists tried. rewrite !trace_emit, Ht, trace_emit.
    rewrite <- !app_assoc. reflexivity.
Qed.

Lemma X17_idle_page_ignores_the_model_witness :
  fst (load_data (fresh (readable rice_raw) (Some garbage_artifact))) =
    Return rice /\
  NoDup (columns rice) /\
  fst (app stump 5 25 800 (13 # 2) false
         (fresh (readable rice_raw) (Some garbage_artifact))) = Return tt /\
  model_pkl (snd (app stump 5 25 800 (13 # 2) false
                    (fresh (readable rice_raw) (Some garbage_artifact)))) =
    Some garbage_artifact.
Proof.
  assert (Hnd : NoDup (columns rice)) by (apply is_unique_iff; reflexivity).
  split; [reflexivity|]. split; [exact Hnd|].
  destruct (@X17_idle_page_ignores_the_model stump 5 25 800 (13 # 2)
              (fresh (readable rice_raw) (Some garbage_artifact)) rice
              eq_refl Hnd)
    as (H1 & H2 & _).
  split; [exact H1|exact H2].
Defined.

(** X18: labels that come out of the normalization alike stop the page:
    when the loaded table has a repeated label, a run in which the button
    is not pressed shows the title, the banner and the sidebar, and the
    data viewer then raises a [ValueError]; the script ends on that error,
    without the table and without the caption. *)
Theorem X18_repeated_label_ends_the_page
    (grow : nat -> Z -> DataFrame -> DataFrame -> exn + Decision)
    (month temp rain : Z) (ph : Q) (w : World) (df : DataFrame) :
  fst (load_data w) = Return df ->
  ~ NoDup (columns df) ->
  (exists e, fst (app grow month temp rain ph false w) = Raise e /\
             class_of e = ValueError) /\
  model_pkl (snd (app grow month temp rain ph false w)) = model_pkl w /\
  exists tried,
    trace (snd (app grow month temp rain ph false w)) =
    trace w ++ page_title :: map Call_read_csv tried ++
    [loaded_banner; sidebar_header].
Proof.
  intros Hl Hnd.
  assert (Hu : is_unique (columns df) = false).
  { destruct (is_unique (columns df)) eqn:E; auto.
    apply is_unique_iff in E. contradiction. }
  destruct (load_data_returns_frame w Hl (emit page_title w) eq_refl eq_refl)
    as (tried & Hr & Ht & Hp).
  destruct (load_data (emit page_title w)) as [r w1] eqn:El.
  cbn [fst snd] in *. subst r.
  rewrite (app_after_load grow month temp rain ph false w El). rewrite Hu.
  cbn [ret fst snd]. split; [eexists; split; reflexivity|]. split.
  - cbn [model_pkl emit]. now rewrite Hp.
  - exists tried. rewrite !trace_emit, Ht, trace_emit.
    rewrite <- !app_assoc. reflexivity.
Qed.

Lemma X18_repeated_label_ends_the_page_witness :
  fst (load_data (fresh (readable twin_labels) None)) =
    Return (normalize_columns twin_labels) /\
  ~ NoDup (columns (normalize_columns twin_labels)) /\
  (exists e,
     fst (app stump 5 25 800 (13 # 2) false
            (fresh (readable twin_labels) None)) = Raise e /\
     class_of e = ValueError) /\
  trace (snd (app stump 5 25 800 (13 # 2) false
                (fresh (readable twin_labels) None))) =
    [page_title; Call_read_csv (utf8 "utf-8"); loaded_banner; sidebar_header].
Proof.
  assert (Hnd : ~ NoDup (columns (normalize_columns twin_labels))).
  { intros H. apply is_unique_iff in H. vm_compute in H. discriminate. }
  split; [reflexivity|]. split; [exact Hnd|]. split.
  - exact (proj1 (@X18_repeated_label_ends_the_page stump 5 25 800 (13 # 2)
                    (fresh (readable twin_labels) None)
                    (normalize_columns twin_labels) eq_refl Hnd)).
  - vm_compute. reflexivity.
Defined.
